(** * Feast Books pre-order storefront: cart, pricing, filtering, submission

    The repository ships three variants of the same storefront:

    - [Script]: the plain page script ([src/script.js]);
    - [Form]:   the React form that posts to the spreadsheet back end
                (first component of [src/index.jsx]);
    - [Local]:  the fully client-side React component with discounts and a
                printable slip (second component of [src/index.jsx]).

    Each variant is embedded from its source.  JavaScript numbers are taken
    as exact rationals ([Q]): sums, products and [Math.round] are exact,
    [NaN] and the infinities are outside the model.  The code computes in
    IEEE doubles, which agree with the rationals on whole numbers of
    moderate size (sums and products below 2^53, and [Math.round] of such a
    number divided by 100) but not on fractions.  A statement that equates
    amounts is therefore either relational (the same operations on the same
    operands in the same order, on either side) or stated for whole numbers;
    inequalities are stated where rounding to a double preserves them.
    Strings are Rocq strings, with [toLowerCase] and [trim] on their ASCII
    range. *)

From Stdlib Require Import QArith Qround Qminmax Ascii String Lqa.
From stdpp Require Import base list strings gmap.

Local Open Scope Q_scope.

(** ** JavaScript helpers *)

Module JS.

(** [Math.round]: nearest integer, ties towards plus infinity. *)
Definition Math_round (x : Q) : Q := inject_Z (Qfloor (x + (1 # 2))).

Definition Math_max (a b : Q) : Q := Qmax a b.
Definition Math_min (a b : Q) : Q := Qmin a b.

(** [x || d] for an optional numeric field: [undefined] and [0] are falsy. *)
Definition or_default (x : option Q) (d : Q) : Q :=
  match x with
  | Some v => if Qeq_bool v 0 then d else v
  | None => d
  end.

(** [xs.reduce((s, x) => f(s, x), init)] *)
Definition reduce {A B} (f : B -> A -> B) (init : B) (xs : list A) : B :=
  fold_left f xs init.

(** Strict comparisons of numbers, as booleans. *)
Global Instance Qlt_decision (a b : Q) : Decision (a < b) :=
  match Qlt_le_dec a b with
  | left H => left H
  | right H => right (Qle_not_lt _ _ H)
  end.

Definition lt (a b : Q) : bool := bool_decide (a < b).
Definition gt (a b : Q) : bool := bool_decide (b < a).

(** [s.toLowerCase()] on the ASCII letters. *)
Definition lower_ascii (c : ascii) : ascii :=
  let n := nat_of_ascii c in
  if (65 <=? n)%nat && (n <=? 90)%nat then ascii_of_nat (n + 32) else c.

Fixpoint toLowerCase (s : string) : string :=
  match s with
  | EmptyString => EmptyString
  | String c r => String (lower_ascii c) (toLowerCase r)
  end.

Fixpoint trimStart (s : string) : string :=
  match s with
  | String c r => if Ascii.is_space c then trimStart r else s
  | EmptyString => EmptyString
  end.

(** [s.trim()] *)
Definition trim (s : string) : string :=
  String.rev (trimStart (String.rev (trimStart s))).

(** [hay.includes(needle)] *)
Fixpoint includes (hay needle : string) : bool :=
  String.prefix needle hay ||
  match hay with
  | EmptyString => false
  | String _ r => includes r needle
  end.

End JS.

(** ** Event handlers: state, effects and exceptions

    A handler runs against the page (or component) state, may perform
    effects that leave the page, and may throw.  The outcome of the single
    asynchronous request of a submission is supplied by the caller. *)

Module Eff.

(** A JavaScript [Error]. *)
Record Error := mkError { name : string; message : string }.

(** [String(err)] *)
Definition String_of (e : Error) : string :=
  if decide (message e = "") then name e else name e +:+ ": " +:+ message e.

Definition TypeError (msg : string) : Error := mkError "TypeError" msg.

Inductive Effect {Body : Type} : Type :=
| PreventDefault
| Alert (msg : string)
| ConsoleError (e : Error)
| WindowPrint
| Fetch (url : string) (body : Body).
Global Arguments Effect : clear implicits.

Definition is_network {Body} (e : Effect Body) : bool :=
  match e with Fetch _ _ => true | _ => false end.

(** What the page sees of its POST: the request itself fails, or a response
    arrives with its [ok] flag and a body that [res.json()] either parses
    or rejects. *)
Inductive Outcome {Reply : Type} : Type :=
| NetworkFailure (e : Error)
| HttpReply (ok : bool) (body : Error + Reply).
Global Arguments Outcome : clear implicits.

Inductive Result {A : Type} : Type :=
| Ok (a : A)
| Thrown (e : Error).
Global Arguments Result : clear implicits.

(** A handler: from a state to a result, the state reached and the effects
    performed, in order. *)
Definition M (St Body A : Type) : Type :=
  St -> Result A * St * list (Effect Body).

Section Ops.
Context {St Body : Type}.
Local Abbreviation M := (M St Body).

Definition ret {A} (a : A) : M A := fun s => (Ok a, s, []).

Definition bind {A B} (m : M A) (k : A -> M B) : M B := fun s =>
  match m s with
  | (Ok a, s1, t1) => let '(r, s2, t2) := k a s1 in (r, s2, t1 ++ t2)
  | (Thrown e, s1, t1) => (Thrown e, s1, t1)
  end.

Definition throw {A} (e : Error) : M A := fun s => (Thrown e, s, []).

Definition get : M St := fun s => (Ok s, s, []).

Definition modify (f : St -> St) : M unit := fun s => (Ok tt, f s, []).

Definition emit (e : Effect Body) : M unit := fun s => (Ok tt, s, [e]).

Definition lift {A} (r : Result A) : M A := fun s => (r, s, []).

(** [try { m } catch (err) { h err }] and [promise.catch(h)] *)
Definition try_catch {A} (m : M A) (h : Error -> M A) : M A := fun s =>
  match m s with
  | (Thrown e, s1, t1) => let '(r, s2, t2) := h e s1 in (r, s2, t1 ++ t2)
  | settled => settled
  end.

(** [try { m } finally { f }] *)
Definition finally {A} (m : M A) (f : M unit) : M A := fun s =>
  let '(r, s1, t1) := m s in
  match f s1 with
  | (Ok _, s2, t2) => (r, s2, t1 ++ t2)
  | (Thrown e, s2, t2) => (Thrown e, s2, t1 ++ t2)
  end.

Definition result_of {A} (x : Result A * St * list (Effect Body)) := x.1.1.
Definition state_of {A} (x : Result A * St * list (Effect Body)) := x.1.2.
Definition trace_of {A} (x : Result A * St * list (Effect Body)) := x.2.

(** [await fetch(url, {method: "POST", body})] against a given outcome. *)
Definition fetch {Reply} (o : Outcome Reply) (url : string) (body : Body)
    : M (bool * (Error + Reply)) :=
  bind (emit (Fetch url body)) (fun _ =>
    match o with
    | NetworkFailure e => throw e
    | HttpReply ok b => ret (ok, b)
    end).

(** [await res.json()] *)
Definition json {Reply} (res : bool * (Error + Reply)) : M Reply :=
  match res.2 with
  | inl e => throw e
  | inr data => ret data
  end.

End Ops.

Global Instance M_ret {St Body} : MRet (M St Body) := @ret St Body.
Global Instance M_bind {St Body} : MBind (M St Body) :=
  fun A B k m => bind m k.

(** No effect of the trace is a request. *)
Definition no_network {Body} (t : list (Effect Body)) : Prop :=
  Forall (fun e => is_network e = false) t.

End Eff.

(** ** The plain page script ([src/script.js])

    [books] is assigned once, from the parsed catalog; its elements are
    pairwise distinct objects, so a reference to a book is its position in
    [books], and [undefined] (an index out of range) is [None].  [===] on
    books is equality of references. *)

Module Script.

Definition API_URL : string :=
  "https://script.google.com/macros/s/AKfycbwOg4Vt1so9FS9BcizBKfRmZgQG1ydz4fjo3VgtYigq68SGg4uOyJfinagZKpuLDdaohw/exec".

(** A record of the parsed catalog; [discounted] may be missing. *)
Record Book := mkBook {
  id : string;
  title : string;
  author : string;
  genre : string;
  price : Q;
  discounted : option Q
}.

(** [book[key]] compared with a string: only string-valued properties can
    be strictly equal to the dropdown's value. *)
Definition prop (b : Book) (key : string) : option string :=
  if decide (key = "title") then Some (title b)
  else if decide (key = "author") then Some (author b)
  else if decide (key = "genre") then Some (genre b)
  else if decide (key = "id") then Some (id b)
  else None.

(** [{ book, quantity }] *)
Record CartItem := mkItem { book : option nat; quantity : Q }.

(** The named inputs of [#order-form]. *)
Record FormFields := mkForm {
  fullname : string;
  email : string;
  contact : string;
  fb : string;
  pickup : string;
  pickupdate : string
}.

(** One rendered catalog entry: the checkbox's [value], its label and
    whether it is checked. *)
Record BookRow := mkBookRow {
  row_index : nat;
  row_text : string;
  row_checked : bool
}.

(** One rendered line of the order table. *)
Record OrderRow := mkOrderRow {
  row_no : nat;
  row_title : string;
  row_author : string;
  row_qty : Q;
  row_price : Q
}.

(** [orderSummary.innerHTML]: the placeholder, or the table and its total. *)
Inductive Summary :=
| NoBooksYet
| OrderTable (rows : list OrderRow) (total : Q).

(** The two globals and the parts of the page the script writes:
    [checkoutBtn] and [customerForm] are the [style.display] of these
    elements, [form] the current values of the order form and
    [form_defaults] the values its markup gives ([reset()] restores them). *)
Record State := mkState {
  books : list Book;
  cart : list CartItem;
  bookList : list BookRow;
  orderSummary : Summary;
  checkoutBtn : string;
  customerForm : string;
  form : FormFields;
  form_defaults : FormFields
}.

Definition set_cart (c : list CartItem) (s : State) : State :=
  mkState (books s) c (bookList s) (orderSummary s) (checkoutBtn s)
          (customerForm s) (form s) (form_defaults s).
Definition set_bookList (l : list BookRow) (s : State) : State :=
  mkState (books s) (cart s) l (orderSummary s) (checkoutBtn s)
          (customerForm s) (form s) (form_defaults s).
Definition set_orderSummary (o : Summary) (s : State) : State :=
  mkState (books s) (cart s) (bookList s) o (checkoutBtn s)
          (customerForm s) (form s) (form_defaults s).
Definition set_checkoutBtn (d : string) (s : State) : State :=
  mkState (books s) (cart s) (bookList s) (orderSummary s) d
          (customerForm s) (form s) (form_defaults s).
Definition set_customerForm (d : string) (s : State) : State :=
  mkState (books s) (cart s) (bookList s) (orderSummary s) (checkoutBtn s)
          d (form s) (form_defaults s).
Definition set_form (f : FormFields) (s : State) : State :=
  mkState (books s) (cart s) (bookList s) (orderSummary s) (checkoutBtn s)
          (customerForm s) f (form_defaults s).

(** The order posted to the sheet: [JSON.stringify(order)]. *)
Record Order := mkOrder {
  o_fullname : string;
  o_email : string;
  o_contact : string;
  o_fb : string;
  o_pickup : string;
  o_pickupdate : string;
  o_items : list (option Book * Q);
  o_total : Q
}.

(** The value [res.json()] resolves to: [null], or any other value,
    [oid] being what its [orderId] property reads as ([None] for
    [undefined], as on an object without that property, a string or a
    number). *)
Inductive Reply :=
| JsonNull
| mkReply (oid : option string).

(** [response.orderId]: reading a property of [null] throws. *)
Definition orderId (response : Reply) : Eff.Result (option string) :=
  match response with
  | JsonNull => Eff.Thrown (Eff.TypeError "Cannot read properties of null")
  | mkReply oid => Eff.Ok oid
  end.

Local Abbreviation M := (Eff.M State Order).

(** [books[index]] *)
Definition books_at (bs : list Book) (index : nat) : option nat :=
  if decide (index < length bs)%nat then Some index else None.

Definition deref (bs : list Book) (r : option nat) : option Book :=
  r ≫= (fun i => bs !! i).

(** [Number(b.discounted || b.price)] *)
Definition unit_price (b : Book) : Q := JS.or_default (discounted b) (price b).

(** [cart.some(c => c.book === book)] *)
Definition in_cart (c : list CartItem) (bk : option nat) : bool :=
  existsb (fun x => bool_decide (book x = bk)) c.

(** The body of [cart.forEach((item, idx) => ...)] in [renderOrder],
    threading [total] and the rows appended to [html]; reading a property
    of an [undefined] book throws.  The amounts are products and sums of
    rationals, where the code has products and sums of doubles, taken in
    the same order. *)
Fixpoint order_rows (bs : list Book) (items : list CartItem) (idx : nat)
    (total : Q) (html : list OrderRow) : Eff.Result (list OrderRow * Q) :=
  match items with
  | [] => Eff.Ok (html, total)
  | item :: rest =>
      match deref bs (book item) with
      | None => Eff.Thrown (Eff.TypeError "Cannot read properties of undefined")
      | Some b =>
          let price := unit_price b * quantity item in
          order_rows bs rest (S idx) (total + price)
            (html ++ [mkOrderRow (idx + 1) (title b) (author b) (quantity item) price])
      end
  end.

Definition renderOrder : M unit :=
  s ← Eff.get;
  if decide (length (cart s) = 0%nat) then
    Eff.modify (set_orderSummary NoBooksYet);;
    Eff.modify (set_checkoutBtn "none");;
    Eff.modify (set_customerForm "none")
  else
    r ← Eff.lift (order_rows (books s) (cart s) 0 0 []);
    Eff.modify (set_orderSummary (OrderTable r.1 r.2));;
    Eff.modify (set_checkoutBtn "block").

Definition toggleBook (index : nat) : M unit :=
  s ← Eff.get;
  let bk := books_at (books s) index in
  (if in_cart (cart s) bk
   then Eff.modify (set_cart (filter (fun c => book c ≠ bk) (cart s)))
   else Eff.modify (set_cart (cart s ++ [mkItem bk 1])));;
  renderOrder.

(** [if (filterValue && book[filter] !== filterValue) return;] *)
Definition skipped (filter filterValue : string) (b : Book) : bool :=
  bool_decide (filterValue ≠ "") && bool_decide (prop b filter ≠ Some filterValue).

Definition label (filter : string) (b : Book) : string :=
  if decide (filter = "title") then title b +:+ " by " +:+ author b
  else if decide (filter = "author") then title b
  else if decide (filter = "genre") then title b +:+ " by " +:+ author b
  else "".

(** The body of [books.forEach((book, index) => ...)] in [renderBooks]. *)
Fixpoint book_rows (filter filterValue : string) (c : list CartItem)
    (index : nat) (bs : list Book) : list BookRow :=
  match bs with
  | [] => []
  | b :: rest =>
      if skipped filter filterValue b
      then book_rows filter filterValue c (S index) rest
      else mkBookRow index (label filter b) (in_cart c (Some index))
             :: book_rows filter filterValue c (S index) rest
  end.

Definition renderBooks (filter filterValue : string) : M unit :=
  s ← Eff.get;
  Eff.modify (set_bookList (book_rows filter filterValue (cart s) 0 (books s))).

(** [cart[index].quantity = Number(qty)]; [qty] is the number read. *)
Definition updateQuantity (index : nat) (qty : Q) : M unit :=
  s ← Eff.get;
  match cart s !! index with
  | None => Eff.throw (Eff.TypeError "Cannot set properties of undefined")
  | Some item =>
      Eff.modify (set_cart (<[index := mkItem (book item) qty]> (cart s)))
  end;;
  renderOrder.

(** [cart.splice(index, 1)] *)
Definition removeItem (index : nat) : M unit :=
  s ← Eff.get;
  Eff.modify (set_cart (delete index (cart s)));;
  renderOrder.

(** [cart.reduce((sum, i) => sum + Number(i.book.discounted || i.book.price) * i.quantity, 0)];
    as in [order_rows], the same products added in the same order. *)
Fixpoint order_total (bs : list Book) (items : list CartItem) (sum : Q)
    : Eff.Result Q :=
  match items with
  | [] => Eff.Ok sum
  | i :: rest =>
      match deref bs (book i) with
      | None => Eff.Thrown (Eff.TypeError "Cannot read properties of undefined")
      | Some b => order_total bs rest (sum + unit_price b * quantity i)
      end
  end.

(** The [submit] listener of the order form. *)
Definition submit (o : Eff.Outcome Reply) : M unit :=
  Eff.emit Eff.PreventDefault;;
  s ← Eff.get;
  if decide (length (cart s) = 0%nat) then
    Eff.emit (Eff.Alert "Please select at least one book before confirming order.")
  else
    total ← Eff.lift (order_total (books s) (cart s) 0);
    let order :=
      mkOrder (fullname (form s)) (email (form s)) (contact (form s))
              (fb (form s)) (pickup (form s)) (pickupdate (form s))
              ((fun i => (deref (books s) (book i), quantity i)) <$> cart s)
              total in
    Eff.try_catch
      (res ← Eff.fetch o API_URL order;
       response ← Eff.json res;
       oid ← Eff.lift (orderId response);
       Eff.emit (Eff.Alert ("Order confirmed! Your Order ID: "
                            +:+ default "undefined" oid));;
       s' ← Eff.get;
       Eff.modify (set_form (form_defaults s'));;
       Eff.modify (set_cart []);;
       renderOrder;;
       Eff.modify (set_customerForm "none"))
      (fun err =>
         Eff.emit (Eff.Alert "Failed to submit order. Please try again.");;
         Eff.emit (Eff.ConsoleError err)).

(** User actions on the cart. *)
Inductive Op :=
| Toggle (index : nat)
| UpdateQuantity (index : nat) (qty : Q)
| RemoveItem (index : nat).

Definition handler (op : Op) : M unit :=
  match op with
  | Toggle i => toggleBook i
  | UpdateQuantity i q => updateQuantity i q
  | RemoveItem i => removeItem i
  end.

(** Each action runs in its own event; an exception ends that handler
    only, and the state it had reached stays. *)
Definition run (ops : list Op) (s : State) : State :=
  fold_left (fun st op => Eff.state_of (handler op st)) ops s.

(** *** Notions used in the statements about this variant *)

Definition cart_refs (s : State) : list (option nat) := book <$> cart s.

(** The [id] of each cart item's book ([None] where the book is
    [undefined]). *)
Definition cart_ids (s : State) : list (option string) :=
  (fun c => id <$> deref (books s) (book c)) <$> cart s.

(** No reference occurs twice in the cart, and every reference points into
    [books]. *)
Definition refs_ok (s : State) : Prop :=
  NoDup (cart_refs s)
  /\ forall i, Some i ∈ cart_refs s -> (i < length (books s))%nat.

(** The books whose rows [renderBooks] puts on the page. *)
Definition displayed (filter filterValue : string) (c : list CartItem)
    (bs : list Book) : list Book :=
  omap (fun r => bs !! row_index r) (book_rows filter filterValue c 0 bs).

(** The promise chain of [submit] rejects: the request fails, the
    response body is not JSON, or it is [null].  The status of the response
    plays no part: [res.ok] is not read. *)
Definition rejects (o : Eff.Outcome Reply) : Prop :=
  match o with
  | Eff.NetworkFailure _ => True
  | Eff.HttpReply _ (inl _) => True
  | Eff.HttpReply _ (inr JsonNull) => True
  | Eff.HttpReply _ (inr (mkReply _)) => False
  end.

(** The order summary on the page is the one [renderOrder] draws for the
    current cart. *)
Definition in_sync (s : State) : Prop :=
  match order_rows (books s) (cart s) 0 0 [] with
  | Eff.Ok (rows, t) =>
      orderSummary s
      = if decide (length (cart s) = 0%nat) then NoBooksYet
        else OrderTable rows t
  | Eff.Thrown _ => True
  end.

(** Sum of the amounts shown in the [Price] column. *)
Definition shown_sum (rows : list OrderRow) : Q :=
  fold_left (fun acc r => acc + row_price r) rows 0.

End Script.

(** ** The React form posting to the sheet (first component of
    [src/index.jsx]) *)

Module Form.

(** [process.env.REACT_APP_API_BASE || "https://YOUR_APPS_SCRIPT_WEB_APP_URL"],
    with the variable unset. *)
Definition API_BASE : string := "https://YOUR_APPS_SCRIPT_WEB_APP_URL".

Record Book := mkBook {
  id : string;
  title : string;
  author : string;
  summary : string;
  genre : string;
  price : Q;
  location : string;
  image : string
}.

(** [{ ...book, qty }] *)
Record CartItem := mkItem { item : Book; qty : Q }.

(** The search state: [q], [genre] and [location] (here [genre_sel] and
    [location_sel], the names being taken by the book's fields), and the
    input strings [minPrice] and [maxPrice], [None] being the empty string
    and [Some n] a string that reads as the number [n]. *)
Record Search := mkSearch {
  q : string;
  genre_sel : string;
  location_sel : string;
  minPrice : option Q;
  maxPrice : option Q
}.

(** The checkout fields; [paymentFile] is the chosen file's name. *)
Record Checkout := mkCheckout {
  fullName : string;
  email : string;
  phone : string;
  fbName : string;
  pickup : string;
  paymentFile : option string;
  notes : string
}.

Record State := mkState {
  sheetId : string;
  books : list Book;
  search : Search;
  cart : list CartItem;
  loading : bool;
  error : option string;
  checkout : Checkout;
  submitting : bool;
  successMsg : string
}.

Definition set_cart (c : list CartItem) (s : State) : State :=
  mkState (sheetId s) (books s) (search s) c (loading s) (error s)
          (checkout s) (submitting s) (successMsg s).
Definition set_checkout (k : Checkout) (s : State) : State :=
  mkState (sheetId s) (books s) (search s) (cart s) (loading s) (error s)
          k (submitting s) (successMsg s).
Definition set_submitting (b : bool) (s : State) : State :=
  mkState (sheetId s) (books s) (search s) (cart s) (loading s) (error s)
          (checkout s) b (successMsg s).
Definition set_successMsg (m : string) (s : State) : State :=
  mkState (sheetId s) (books s) (search s) (cart s) (loading s) (error s)
          (checkout s) (submitting s) m.

(** The callback of [books.filter] in [filtered]; a non-empty [minPrice]
    or [maxPrice] is truthy whatever number it reads as. *)
Definition keeps (f : Search) (b : Book) : bool :=
  let ql := JS.toLowerCase (JS.trim (q f)) in
  if bool_decide (ql ≠ "")
     && negb (JS.includes
                (JS.toLowerCase (title b +:+ " " +:+ author b +:+ " " +:+ genre b))
                ql)
  then false
  else if bool_decide (genre_sel f ≠ "") && bool_decide (genre b ≠ genre_sel f)
  then false
  else if bool_decide (location_sel f ≠ "")
          && bool_decide (location b ≠ location_sel f)
  then false
  else
    let price := JS.or_default (Some (price b)) 0 in
    if match minPrice f with Some m => JS.lt price m | None => false end
    then false
    else if match maxPrice f with Some m => JS.gt price m | None => false end
    then false
    else true.

(** The body of the [useMemo] of [filtered], as a function of the catalog
    and the search state. *)
Definition applyFilter (bs : list Book) (f : Search) : list Book :=
  filter (fun b => Is_true (keeps f b)) bs.

Definition filtered (s : State) : list Book := applyFilter (books s) (search s).

(** The updater passed to [setCart] by [addToCart], on the value of the
    array; [copy[i].qty += 1] writes into the item object itself, see
    [FormObjects] below. *)
Definition addToCart (b : Book) (c : list CartItem) : list CartItem :=
  match list_find (fun x => id (item x) = id b) c with
  | Some (i, x) => <[i := mkItem (item x) (qty x + 1)]> c
  | None => c ++ [mkItem b 1]
  end.

(** The updaters of [updateQty] and [removeFromCart]; [n] is the number
    passed.  The quantity box passes [Number(e.target.value)], which is NaN
    for a text that does not read as a number: [Math.max(1, NaN)] is NaN,
    and that call is not among those described here. *)
Definition updateQty (bookId : string) (n : Q) (c : list CartItem)
    : list CartItem :=
  (fun it => if decide (id (item it) = bookId)
             then mkItem (item it) (JS.Math_max 1 n) else it) <$> c.

Definition removeFromCart (bookId : string) (c : list CartItem)
    : list CartItem :=
  filter (fun it => id (item it) ≠ bookId) c.

Definition subtotal (c : list CartItem) : Q :=
  JS.reduce (fun s it => s + JS.or_default (Some (price (item it))) 0 * qty it) 0 c.

(** The multipart form sent to [/reserve]. *)
Record CartLine := mkLine {
  l_id : string;
  l_title : string;
  l_author : string;
  l_qty : Q;
  l_price : Q
}.

Record FormData := mkFormData {
  f_sheetId : string;
  f_fullName : string;
  f_email : string;
  f_phone : string;
  f_fbName : string;
  f_pickup : string;
  f_notes : string;
  f_cart : list CartLine;
  f_paymentFile : option string
}.

(** The value [res.json()] resolves to: [null], or any other value,
    [msg] being what its [message] property reads as ([None] for
    [undefined]). *)
Inductive Reply :=
| JsonNull
| mkReply (msg : option string).

(** [data.message]: reading a property of [null] throws. *)
Definition message (data : Reply) : Eff.Result (option string) :=
  match data with
  | JsonNull => Eff.Thrown (Eff.TypeError "Cannot read properties of null")
  | mkReply msg => Eff.Ok msg
  end.

Local Abbreviation M := (Eff.M State FormData).

(** [setFullName(""); setEmail(""); setPhone(""); setFbName("");
    setNotes(""); setPaymentFile(null)] *)
Definition reset_fields (k : Checkout) : Checkout :=
  mkCheckout "" "" "" "" (pickup k) None "".

(** [err.message || String(err)] *)
Definition notice (err : Eff.Error) : string :=
  if decide (Eff.message err = "") then Eff.String_of err else Eff.message err.

Definition submitOrder (o : Eff.Outcome Reply) : M unit :=
  Eff.emit Eff.PreventDefault;;
  s ← Eff.get;
  if decide (length (cart s) = 0%nat) then
    Eff.emit (Eff.Alert "Your cart is empty.")
  else
    Eff.modify (set_submitting true);;
    Eff.modify (set_successMsg "");;
    Eff.finally
      (Eff.try_catch
         (let endpoint := API_BASE +:+ "/reserve" in
          let k := checkout s in
          let form :=
            mkFormData (sheetId s) (fullName k) (email k) (phone k) (fbName k)
              (pickup k) (notes k)
              ((fun it => mkLine (id (item it)) (title (item it))
                            (author (item it)) (qty it) (price (item it)))
                 <$> cart s)
              (paymentFile k) in
          res ← Eff.fetch o endpoint form;
          (if negb res.1
           then Eff.throw (Eff.mkError "Error" "Failed to submit order")
           else mret tt);;
          data ← Eff.json res;
          msg ← Eff.lift (message data);
          Eff.modify (set_successMsg
                        (match msg with
                         | Some m => if decide (m = "")
                                     then "Order submitted. Thank you!" else m
                         | None => "Order submitted. Thank you!"
                         end));;
          Eff.modify (set_cart []);;
          s' ← Eff.get;
          Eff.modify (set_checkout (reset_fields (checkout s'))))
         (fun err => Eff.emit (Eff.Alert (notice err))))
      (Eff.modify (set_submitting false)).

(** User actions on the cart. *)
Inductive Op :=
| Add (b : Book)
| SetQty (bookId : string) (n : Q)
| Remove (bookId : string).

Definition step (op : Op) (c : list CartItem) : list CartItem :=
  match op with
  | Add b => addToCart b c
  | SetQty i n => updateQty i n c
  | Remove i => removeFromCart i c
  end.

Definition run (ops : list Op) (c : list CartItem) : list CartItem :=
  fold_left (fun st op => step op st) ops c.

(** *** Notions used in the statements about this variant *)

Definition distinct_ids (c : list CartItem) : Prop :=
  NoDup ((fun x => id (item x)) <$> c).

(** The error that reaches the [catch] block, if any: the request fails,
    the response is not [ok], its body is not JSON, or it is [null]. *)
Definition failure_of (o : Eff.Outcome Reply) : option Eff.Error :=
  match o with
  | Eff.NetworkFailure e => Some e
  | Eff.HttpReply false _ => Some (Eff.mkError "Error" "Failed to submit order")
  | Eff.HttpReply true (inl e) => Some e
  | Eff.HttpReply true (inr JsonNull) =>
      Some (Eff.TypeError "Cannot read properties of null")
  | Eff.HttpReply true (inr (mkReply _)) => None
  end.

End Form.

(** ** [addToCart] of the React form, on the objects themselves

    [copy[i].qty += 1] writes into the item object that the array passed in
    and its copy both hold.  Here the items live in a heap and the cart
    array holds their addresses; [Form.addToCart] above is the same updater
    read through [view]. *)

Module FormObjects.

(** The test of [c.findIndex((x) => x.id === book.id)] on the object at
    address [r]. *)
Definition has_id (h : gmap nat Form.CartItem) (bookId : string) (r : nat) : Prop :=
  Form.id ∘ Form.item <$> h !! r = Some bookId.

Global Instance has_id_dec h bookId r : Decision (has_id h bookId r) :=
  decide (Form.id ∘ Form.item <$> h !! r = Some bookId).

Definition addToCart (b : Form.Book) (h : gmap nat Form.CartItem) (c : list nat)
    : gmap nat Form.CartItem * list nat :=
  match list_find (has_id h (Form.id b)) c with
  | Some (i, r) =>
      (* [copy] holds the addresses of [c]; the object at [copy[i]] is
         written in place *)
      (alter (fun x => Form.mkItem (Form.item x) (Form.qty x + 1)) r h, c)
  | None =>
      (* [[...c, { ...book, qty: 1 }]]: one new object *)
      let r := fresh (dom h) in
      (<[r := Form.mkItem b 1]> h, c ++ [r])
  end.

(** The cart as the component reads it. *)
Definition view (h : gmap nat Form.CartItem) (c : list nat) : list Form.CartItem :=
  omap (fun r => h !! r) c.

Definition allocated (h : gmap nat Form.CartItem) (c : list nat) : Prop :=
  forall r, r ∈ c -> is_Some (h !! r).

End FormObjects.

(** ** The fully local variant (second component of [src/index.jsx]) *)

Module Local.

Record Book := mkBook {
  id : string;
  title : string;
  author : string;
  summary : string;
  genre : string;
  price : Q;
  discountPct : option Q;
  image : string
}.

Record CartItem := mkItem { book : Book; qty : Q }.

(** [const pct = Math.max(0, Math.min(100, book.discountPct || 0))] *)
Definition pct_of (b : Book) : Q :=
  JS.Math_max 0 (JS.Math_min 100 (JS.or_default (discountPct b) 0)).

(** [Math.round((book.price * (100 - pct)) / 100)]; the product and the
    quotient are those of the rationals, where the code rounds each to a
    double: the results agree for a whole-number price and percentage, and
    can differ by 1 for a fractional percentage. *)
Definition discounted (b : Book) : Q :=
  JS.Math_round ((price b * (100 - pct_of b)) / 100).

Record State := mkState {
  catalog : list Book;
  cart : list CartItem;
  note : string;
  showContact : bool;
  name : string;
  email : string;
  phone : string
}.

(** [useMemo(() => cart.reduce((sum, it) => sum + discounted(it.book) * it.qty, 0), [cart])] *)
Definition total (c : list CartItem) : Q :=
  JS.reduce (fun sum it => sum + discounted (book it) * qty it) 0 c.

(** The amount shown on a line of the summary:
    [item.qty * discounted(item.book)]. *)
Definition line_subtotal (it : CartItem) : Q := qty it * discounted (book it).

(** The updaters passed to [setCart] by [addToCart], [setQty],
    [removeItem] and [clearCart]. *)
Definition addToCart (b : Book) (prev : list CartItem) : list CartItem :=
  match list_find (fun x => id (book x) = id b) prev with
  | Some (i, x) => <[i := mkItem (book x) (qty x + 1)]> prev
  | None => prev ++ [mkItem b 1]
  end.

Definition setQty (bookId : string) (n : Q) (prev : list CartItem)
    : list CartItem :=
  filter (fun x => 0 < qty x)
    ((fun x => if decide (id (book x) = bookId)
               then mkItem (book x) (JS.Math_max 1 n) else x) <$> prev).

Definition removeItem (bookId : string) (prev : list CartItem)
    : list CartItem :=
  filter (fun x => id (book x) ≠ bookId) prev.

Definition clearCart : list CartItem := [].

(** [window.print()] *)
Definition printSlip : Eff.M State unit unit := Eff.emit Eff.WindowPrint.

(** User actions on the cart. *)
Inductive Op :=
| Add (b : Book)
| SetQty (bookId : string) (n : Q)
| Remove (bookId : string)
| Clear.

Definition step (op : Op) (c : list CartItem) : list CartItem :=
  match op with
  | Add b => addToCart b c
  | SetQty i n => setQty i n c
  | Remove i => removeItem i c
  | Clear => clearCart
  end.

Definition run (ops : list Op) (c : list CartItem) : list CartItem :=
  fold_left (fun st op => step op st) ops c.

(** *** Notions used in the statements about this variant *)

Definition distinct_ids (c : list CartItem) : Prop :=
  NoDup ((fun x => id (book x)) <$> c).

(** Sum of the amounts shown on the lines of the summary. *)
Definition shown_sum (c : list CartItem) : Q :=
  fold_left Qplus (line_subtotal <$> c) 0.


End Local.

(** ** The rest of the page script: loading the catalog, the filter
    controls and the checkout button *)

Module ScriptPage.

(** A property of a book as [book[key]] yields it. *)
Inductive Value :=
| VString (s : string)
| VNumber (n : Q)
| VUndefined.

(** The equality a [Set] uses: the same string, or the same number. *)
Definition same_value (x y : Value) : bool :=
  match x, y with
  | VString s, VString s' => bool_decide (s = s')
  | VNumber n, VNumber n' => Qeq_bool n n'
  | VUndefined, VUndefined => true
  | _, _ => false
  end.

(** [book[key]] *)
Definition field (b : Script.Book) (key : string) : Value :=
  if decide (key = "title") then VString (Script.title b)
  else if decide (key = "author") then VString (Script.author b)
  else if decide (key = "genre") then VString (Script.genre b)
  else if decide (key = "id") then VString (Script.id b)
  else if decide (key = "price") then VNumber (Script.price b)
  else if decide (key = "discounted")
       then match Script.discounted b with
            | Some d => VNumber d
            | None => VUndefined
            end
  else VUndefined.

(** [[...new Set(xs)]]: the distinct elements, each at its first
    occurrence. *)
Definition Set_values (xs : list Value) : list Value :=
  fold_left (fun seen x => if existsb (same_value x) seen then seen
                           else seen ++ [x]) xs [].

(** The filter controls and the state of the book list.  [checked] is the
    value of the checked radio button, if one is checked; [options] are the
    values given to the options appended after the placeholder;
    [load_failed] holds when the book list shows the failure paragraph. *)
Record Controls := mkControls {
  checked : option string;
  disabled : bool;
  options : list Value;
  value : string;
  load_failed : bool
}.

Record Page := mkPage { st : Script.State; controls : Controls }.

Definition set_st (s : Script.State) (p : Page) : Page := mkPage s (controls p).
Definition set_controls (c : Controls) (p : Page) : Page := mkPage (st p) c.
Definition set_disabled (d : bool) (c : Controls) : Controls :=
  mkControls (checked c) d (options c) (value c) (load_failed c).
Definition set_options (o : list Value) (c : Controls) : Controls :=
  mkControls (checked c) (disabled c) o (value c) (load_failed c).
Definition set_value (v : string) (c : Controls) : Controls :=
  mkControls (checked c) (disabled c) (options c) v (load_failed c).
Definition set_load_failed (f : bool) (c : Controls) : Controls :=
  mkControls (checked c) (disabled c) (options c) (value c) f.
Definition set_books (bs : list Script.Book) (s : Script.State) : Script.State :=
  Script.mkState bs (Script.cart s) (Script.bookList s) (Script.orderSummary s)
    (Script.checkoutBtn s) (Script.customerForm s) (Script.form s)
    (Script.form_defaults s).

(** Handlers of the page; a request carries an order, or nothing. *)
Local Abbreviation M := (Eff.M Page (option Script.Order)).

Definition with_body {B B'} (f : B -> B') (e : Eff.Effect B) : Eff.Effect B' :=
  match e with
  | Eff.PreventDefault => Eff.PreventDefault
  | Eff.Alert m => Eff.Alert m
  | Eff.ConsoleError err => Eff.ConsoleError err
  | Eff.WindowPrint => Eff.WindowPrint
  | Eff.Fetch u b => Eff.Fetch u (f b)
  end.

(** A handler of [Script] run on the page. *)
Definition on_st {A} (m : Eff.M Script.State Script.Order A) : M A := fun p =>
  let '(r, s, t) := m (st p) in (r, set_st s p, with_body Some <$> t).

(** [renderBooks] replaces whatever the book list showed. *)
Definition renderBooks (filter filterValue : string) : M unit :=
  on_st (Script.renderBooks filter filterValue);;
  Eff.modify (fun p => set_controls (set_load_failed false (controls p)) p).

(** [document.querySelector('input[name="filter"]:checked').value] *)
Definition getSelectedFilter : M string :=
  p ← Eff.get;
  match checked (controls p) with
  | Some v => mret v
  | None => Eff.throw (Eff.TypeError "Cannot read properties of null")
  end.

(** Setting [innerHTML] to the placeholder option selects it. *)
Definition populateDropdown (filter : string) : M unit :=
  Eff.modify (fun p => set_controls (set_value "" (set_options [] (controls p))) p);;
  p ← Eff.get;
  let values := Set_values ((fun b => field b filter) <$> Script.books (st p)) in
  Eff.modify (fun p => set_controls (set_options values (controls p)) p).

(** The [change] listener of the radio buttons. *)
Definition radioChange : M unit :=
  filter ← getSelectedFilter;
  if decide (filter = "title") then
    Eff.modify (fun p => set_controls (set_disabled true (controls p)) p);;
    renderBooks "title" ""
  else
    Eff.modify (fun p => set_controls (set_disabled false (controls p)) p);;
    populateDropdown filter.

(** The [change] listener of the dropdown, the user having picked the
    option of value [selected]. *)
Definition dropdownChange (selected : string) : M unit :=
  Eff.modify (fun p => set_controls (set_value selected (controls p)) p);;
  filter ← getSelectedFilter;
  if decide (selected ≠ "") then renderBooks filter selected
  else renderBooks filter "".

(** The [click] listener of the checkout button. *)
Definition checkoutClick : M unit :=
  on_st (Eff.modify (Script.set_customerForm "block");;
         Eff.modify (Script.set_checkoutBtn "none")).

(** What [res.json()] resolves to for the catalog request: an array of
    book records, as the sheet sends it, or a value that is not an array
    ([null], an error object, a string). *)
Inductive Parsed :=
| NotArray
| Array (data : list Script.Book).

(** The page while the script starts.  [books_is_array] is false once
    [books] has been assigned a value that is not an array; the [books] of
    [page] is then not what the global holds, and every handler that reads
    [books] throws. *)
Record Boot := mkBoot { page : Page; books_is_array : bool }.

Definition on_page {A} (m : M A) : Eff.M Boot (option Script.Order) A := fun b =>
  let '(r, p, t) := m (page b) in (r, mkBoot p (books_is_array b), t).

(** The catalog request made when the script starts.  With a body that is
    not an array, [renderBooks] empties the list and [books.forEach]
    throws, which [.catch] receives. *)
Definition load (o : Eff.Outcome Parsed) : Eff.M Boot (option Script.Order) unit :=
  Eff.try_catch
    (res ← Eff.fetch o Script.API_URL None;
     data ← Eff.json res;
     match data with
     | Array bs =>
         Eff.modify (fun b =>
           mkBoot (set_st (set_books bs (st (page b))) (page b)) true);;
         on_page (renderBooks "title" "")
     | NotArray =>
         Eff.modify (fun b => mkBoot (page b) false);;
         on_page (on_st (Eff.modify (Script.set_bookList []));;
                  Eff.modify (fun p =>
                    set_controls (set_load_failed false (controls p)) p));;
         Eff.throw (Eff.TypeError "books.forEach is not a function")
     end)
    (fun err =>
       on_page (Eff.modify (fun p =>
         set_controls (set_load_failed true (controls p))
           (set_st (Script.set_bookList [] (st p)) p)));;
       Eff.emit (Eff.ConsoleError err)).

(** *** Notions used in the statements about the page *)

(** The row that [renderBooks] draws for the book at [index]. *)
Definition row_of (filter : string) (c : list Script.CartItem) (index : nat)
    (b : Script.Book) : Script.BookRow :=
  Script.mkBookRow index (Script.label filter b) (Script.in_cart c (Some index)).

(** The amount [renderOrder] shows on the row of a cart line: the unit
    price of its book times its quantity. *)
Definition amount (bs : list Script.Book) (item : Script.CartItem) : Q :=
  match Script.deref bs (Script.book item) with
  | Some b => Script.unit_price b * Script.quantity item
  | None => 0
  end.

(** No two options stand for the same value. *)
Definition distinct_values (l : list Value) : Prop :=
  forall i j x y, l !! i = Some x -> l !! j = Some y ->
                  same_value x y = true -> i = j.

(** The handler has run to its end. *)
Definition completes {St B} (x : Eff.Result unit * St * list (Eff.Effect B)) : Prop :=
  Eff.result_of x = Eff.Ok tt.

End ScriptPage.

(** ** The rest of the React form: loading the catalog *)

Module FormPage.

(** [encodeURIComponent] on the bytes of the string: letters, digits and
    [-_.!~*'()] stay, every other byte becomes [%XX]. *)
Definition unreserved (c : ascii) : bool :=
  let n := nat_of_ascii c in
  ((65 <=? n) && (n <=? 90) || (97 <=? n) && (n <=? 122)
   || (48 <=? n) && (n <=? 57))%nat
  || bool_decide (c ∈ ["-"; "_"; "."; "!"; "~"; "*"; "'"; "("; ")"]%char).

Definition hex_digit (n : nat) : ascii :=
  if (n <? 10)%nat then ascii_of_nat (48 + n) else ascii_of_nat (55 + n).

Fixpoint encodeURIComponent (s : string) : string :=
  match s with
  | EmptyString => EmptyString
  | String c r =>
      if unreserved c then String c (encodeURIComponent r)
      else
        let n := nat_of_ascii c in
        String "%" (String (hex_digit (n / 16)) (String (hex_digit (n mod 16))
          (encodeURIComponent r)))
  end.

(** The address [fetchBooks] requests. *)
Definition books_url (sheetId : string) : string :=
  Form.API_BASE +:+ "/books?sheetId=" +:+ encodeURIComponent sheetId.

Definition set_books (l : list Form.Book) (s : Form.State) : Form.State :=
  Form.mkState (Form.sheetId s) l (Form.search s) (Form.cart s) (Form.loading s)
    (Form.error s) (Form.checkout s) (Form.submitting s) (Form.successMsg s).
Definition set_loading (b : bool) (s : Form.State) : Form.State :=
  Form.mkState (Form.sheetId s) (Form.books s) (Form.search s) (Form.cart s) b
    (Form.error s) (Form.checkout s) (Form.submitting s) (Form.successMsg s).
Definition set_error (e : option string) (s : Form.State) : Form.State :=
  Form.mkState (Form.sheetId s) (Form.books s) (Form.search s) (Form.cart s)
    (Form.loading s) e (Form.checkout s) (Form.submitting s) (Form.successMsg s).

Local Abbreviation M := (Eff.M Form.State unit).

(** [fetchBooks]: the body, when it parses, is the array of books or
    [null]. *)
Definition fetchBooks (o : Eff.Outcome (option (list Form.Book)))
    (sheetId : string) : M (option (list Form.Book)) :=
  res ← Eff.fetch o (books_url sheetId) tt;
  (if negb res.1
   then Eff.throw (Eff.mkError "Error" "Failed to fetch books")
   else mret tt);;
  Eff.json res.

(** The effect that runs when [sheetId] changes. *)
Definition loadBooks (o : Eff.Outcome (option (list Form.Book))) : M unit :=
  s ← Eff.get;
  if decide (Form.sheetId s = "") then mret tt
  else
    Eff.modify (set_loading true);;
    Eff.modify (set_error None);;
    Eff.finally
      (Eff.try_catch
         (data ← fetchBooks o (Form.sheetId s);
          Eff.modify (set_books (default [] data)))
         (fun err => Eff.modify (set_error (Some (Form.notice err)))))
      (Eff.modify (set_loading false)).

(** *** Notions used in the statements about the form *)

(** The characters that can occur in an encoded component. *)
Definition component_char (c : ascii) : bool :=
  unreserved c || bool_decide (c = "%"%char).

Fixpoint all_chars (p : ascii -> bool) (s : string) : bool :=
  match s with
  | EmptyString => true
  | String c r => p c && all_chars p r
  end.

(** The search state with all inputs empty. *)
Definition no_search : Form.Search := Form.mkSearch "" "" "" None None.

End FormPage.

(** ** The rest of the local component: the cart badge and the custom
    book form *)

Module LocalPage.

(** The number on the cart button: [cart.reduce((n, x) => n + x.qty, 0)]. *)
Definition cartCount (c : list Local.CartItem) : Q :=
  JS.reduce (fun n x => n + Local.qty x) 0 c.

(** The inputs of the custom book form; an input never filled in reads as
    the empty string, as [newBook.title || ""] shows it, and a price or a
    percentage never entered is [None]. *)
Record NewBook := mkNewBook {
  title : string;
  author : string;
  genre : string;
  price : option Q;
  discountPct : option Q;
  image : string;
  summary : string
}.

(** [{ discountPct: 0 }] *)
Definition blank : NewBook := mkNewBook "" "" "" None (Some 0) "" "".

(** [newBook.title && newBook.author && newBook.price && newBook.image] *)
Definition canAdd (nb : NewBook) : bool :=
  bool_decide (title nb ≠ "") && bool_decide (author nb ≠ "")
  && match price nb with
     | Some p => negb (Qeq_bool p 0)
     | None => false
     end
  && bool_decide (image nb ≠ "").

(** [addCustomBook], [rnd] being the string drawn for the id; the result is
    the catalog and the form. *)
Definition addCustomBook (rnd : string) (nb : NewBook) (catalog : list Local.Book)
    : list Local.Book * NewBook :=
  if negb (canAdd nb) then (catalog, nb)
  else
    let b :=
      Local.mkBook rnd (title nb) (author nb) (summary nb) (genre nb)
        (default 0 (price nb)) (Some (JS.or_default (discountPct nb) 0))
        (image nb) in
    (b :: catalog, blank).

(** *** Notions used in the statements about the component *)

(** Every quantity in the cart is at least 1. *)
Definition quantities_ok (c : list Local.CartItem) : Prop :=
  Forall (fun x => 1 <= Local.qty x) c.

End LocalPage.

(** * Properties *)

(** ** Rounding and the discount *)

Section Rounding.

Lemma div100 (x : Q) : x / 100 == x * (1 # 100).
Proof. reflexivity. Qed.

Lemma Math_round_mono (x y : Q) : x <= y -> JS.Math_round x <= JS.Math_round y.
Proof.
  intros Hxy. unfold JS.Math_round. rewrite <- Zle_Qle.
  apply Qfloor_resp_le. lra.
Qed.

(** [Math.round x] is the integer [z] with [z <= x + 1/2 < z + 1]. *)
Lemma Math_round_spec (x : Q) (z : Z) :
  JS.Math_round x == inject_Z z <-> inject_Z z <= x + (1 # 2) < inject_Z z + 1.
Proof.
  unfold JS.Math_round. rewrite inject_Z_injective. split.
  - intros <-. split.
    + apply Qfloor_le.
    + generalize (Qlt_floor (x + (1 # 2))). rewrite inject_Z_plus. tauto.
  - intros [Hlo Hhi]. apply Z.le_antisymm.
    + apply Z.lt_succ_r. rewrite Zlt_Qlt.
      eapply Qle_lt_trans; [apply Qfloor_le|].
      rewrite <- Z.add_1_r, inject_Z_plus. exact Hhi.
    + rewrite <- (Qfloor_Z z) at 1. now apply Qfloor_resp_le.
Qed.

Lemma Math_round_Z (z : Z) : JS.Math_round (inject_Z z) = inject_Z z.
Proof.
  assert (H : JS.Math_round (inject_Z z) == inject_Z z)
    by (apply Math_round_spec; lra).
  unfold JS.Math_round in *. f_equal. now apply inject_Z_injective.
Qed.

Lemma Math_round_nonneg (x : Q) : 0 <= x -> 0 <= JS.Math_round x.
Proof.
  intros Hx. change 0 with (inject_Z 0) at 1. rewrite <- (Math_round_Z 0).
  apply Math_round_mono. exact Hx.
Qed.

Global Instance Math_round_proper : Proper (Qeq ==> eq) JS.Math_round.
Proof. intros x y Hxy. unfold JS.Math_round. now rewrite Hxy. Qed.

End Rounding.

Section Discount.
Import Local.

Lemma or_default_eq (x : Q) (d : Q) : d == 0 -> JS.or_default (Some x) d == x.
Proof.
  intros Hd. unfold JS.or_default. destruct (Qeq_bool x 0) eqn:E; [|reflexivity].
  apply Qeq_bool_eq in E. now rewrite E, Hd.
Qed.

Lemma pct_of_range (b : Book) : 0 <= pct_of b <= 100.
Proof.
  unfold pct_of, JS.Math_max, JS.Math_min. split.
  - apply Q.le_max_l.
  - apply Q.max_lub; [lra | apply Q.le_min_l].
Qed.

(** Within range the clamp is the identity. *)
Lemma pct_of_in_range (b : Book) (c : Q) :
  discountPct b = Some c -> 0 <= c <= 100 -> pct_of b == c.
Proof.
  intros Hb [Hlo Hhi]. unfold pct_of, JS.Math_max, JS.Math_min. rewrite Hb.
  rewrite (or_default_eq c 0) by reflexivity.
  rewrite Q.min_r by exact Hhi. now apply Q.max_r.
Qed.




Lemma discounted_bounds (b : Book) :
  0 <= price b -> 0 <= discounted b <= JS.Math_round (price b).
Proof.
  intros Hp. destruct (pct_of_range b) as [Hlo Hhi]. unfold discounted.
  assert (Hpc : 0 <= price b * pct_of b) by now apply Qmult_le_0_compat.
  assert (Hpd : 0 <= price b * (100 - pct_of b))
    by (apply Qmult_le_0_compat; lra).
  split.
  - apply Math_round_nonneg. rewrite div100. lra.
  - apply Math_round_mono. rewrite div100. lra.
Qed.

End Discount.

(** C3 (as amended): for a book whose price is a whole number from 0 to
    10^12 and whose discount percentage [c] is a whole number in [0,100],
    [discounted] is [Math.round(price * (100 - c) / 100)], it is at most the
    price, and it equals the price exactly when [price * c <= 50]; in
    particular when [c] is 0.  On these books the doubles of the code give
    what the rationals give: the product is a whole number below 2^53, and
    its hundredth either ends in .5, which a double holds exactly, or lies
    at least a hundredth away from every such number, which rounding to a
    double does not bridge. *)
Theorem C3_effective_unit_price (b : Local.Book) (c : Q) (p k : Z) :
  Local.discountPct b = Some c ->
  0 <= c <= 100 ->
  c == inject_Z k ->
  Local.price b == inject_Z p ->
  0 <= Local.price b <= 1000000000000 ->
  Local.discounted b = JS.Math_round (Local.price b * (100 - c) / 100)
  /\ Local.discounted b <= Local.price b
  /\ (Local.discounted b == Local.price b <-> Local.price b * c <= 50)
  /\ (c == 0 -> Local.discounted b == Local.price b).
Proof.
  intros Hb Hc _ Hp [Hpos _].
  assert (Hpct : Local.pct_of b == c) by now apply pct_of_in_range.
  assert (Hx : Local.discounted b
               = JS.Math_round (Local.price b * (100 - c) / 100)).
  { unfold Local.discounted. apply Math_round_proper. now rewrite Hpct. }
  assert (Hpc : 0 <= Local.price b * c)
    by (apply Qmult_le_0_compat; tauto).
  assert (Hiff : Local.discounted b == Local.price b
                 <-> Local.price b * c <= 50).
  { split.
    - intros Heq.
      assert (Hz : JS.Math_round (Local.price b * (100 - c) / 100)
                   == inject_Z p) by (rewrite <- Hx, Heq; exact Hp).
      apply Math_round_spec in Hz. rewrite div100 in Hz. lra.
    - intros Hle. transitivity (inject_Z p); [|symmetry; exact Hp].
      rewrite Hx. apply Math_round_spec. rewrite div100. lra. }
  split; [exact Hx|]. split; [|split; [exact Hiff|]].
  - destruct (discounted_bounds b Hpos) as [_ Hle].
    rewrite (Math_round_proper _ _ Hp), Math_round_Z, <- Hp in Hle.
    exact Hle.
  - intros H0. apply Hiff. rewrite H0. lra.
Qed.

Lemma C3_effective_unit_price_witness :
  let b := Local.mkBook "1" "How Good People Like You Can Become Rich"
             "Bo Sanchez" "" "Inspirational / Finance" 385 (Some 20) "" in
  Local.discounted b = 308 /\ Local.discounted b <= Local.price b.
Proof.
  intros b.
  destruct (C3_effective_unit_price b 20 385 20) as (H1 & H2 & _);
    [reflexivity | split; lra | reflexivity | reflexivity | simpl; lra |].
  split; [reflexivity | exact H2].
Defined.

(** C3 as stated fails twice.  A book of price 1 with a 10 percent discount
    keeps the effective unit price 1, although the discount is not 0; and a
    book of price 99.5 without discount has the effective unit price 100,
    above its price. *)
Lemma C3_counterexample :
  let b := Local.mkBook "1" "A" "" "" "" 1 (Some 10) "" in
  let b' := Local.mkBook "2" "B" "" "" "" (199 # 2) (Some 0) "" in
  ((0 <= Local.price b /\ Local.discountPct b = Some 10 /\ 0 <= 10 <= 100)
   /\ Local.discounted b == Local.price b
   /\ ~ 10 == 0)
  /\ ((0 <= Local.price b' /\ Local.discountPct b' = Some 0 /\ 0 <= 0 <= 100)
      /\ Local.discounted b' = 100
      /\ ~ Local.discounted b' <= Local.price b').
Proof.
  cbv zeta. split; (split; [split; [|split]|split]).
  - simpl. lra.
  - reflexivity.
  - lra.
  - reflexivity.
  - intros H. discriminate H.
  - simpl. lra.
  - reflexivity.
  - lra.
  - reflexivity.
  - intros H. apply H. reflexivity.
Qed.





(** ** Lists of items looked up by a key *)

Section Keyed.
Context {A K : Type} (key : A -> K).

Lemma keys_insert_same (l : list A) (i : nat) (x x' : A) :
  l !! i = Some x -> key x' = key x -> key <$> <[i:=x']> l = key <$> l.
Proof.
  intros Hi Hk. rewrite list_fmap_insert. apply list_insert_id.
  rewrite list_lookup_fmap, Hi. simpl. now rewrite Hk.
Qed.

Lemma keys_fmap_same (g : A -> A) (l : list A) :
  (forall x, key (g x) = key x) -> key <$> (g <$> l) = key <$> l.
Proof.
  intros Hg. rewrite <- list_fmap_compose. apply list_fmap_ext.
  intros i x _. apply Hg.
Qed.

Lemma NoDup_keys_snoc (l : list A) (y : A) :
  NoDup (key <$> l) -> (forall x, x ∈ l -> key x ≠ key y) ->
  NoDup (key <$> (l ++ [y])).
Proof.
  intros Hl Hy. rewrite fmap_app. apply NoDup_app. split; [exact Hl|].
  split; [|apply NoDup_singleton].
  intros k Hk Hk'. apply list_elem_of_fmap in Hk as (x & -> & Hx).
  apply list_elem_of_singleton in Hk'. now apply (Hy x).
Qed.

Lemma NoDup_keys_sublist (l1 l2 : list A) :
  l1 `sublist_of` l2 -> NoDup (key <$> l2) -> NoDup (key <$> l1).
Proof.
  intros Hsub Hnd. apply (sublist_NoDup _ (key <$> l2)); [exact Hnd|].
  now apply fmap_sublist.
Qed.

Context `{EqDecision K}.

(** The shape shared by the two [addToCart] updaters. *)
Lemma find_key_present (l : list A) (k : K) :
  (exists x, x ∈ l /\ key x = k) ->
  exists i x, list_find (fun y => key y = k) l = Some (i, x)
              /\ l !! i = Some x /\ key x = k
              /\ forall j y, l !! j = Some y -> (j < i)%nat -> key y ≠ k.
Proof.
  intros (x & Hx & Hk).
  destruct (list_find_elem_of (fun y => key y = k) l x Hx Hk) as [[i y] Hf].
  exists i, y. split; [exact Hf|]. now apply list_find_Some in Hf.
Qed.

Lemma find_key_absent (l : list A) (k : K) :
  (forall x, x ∈ l -> key x ≠ k) -> list_find (fun y => key y = k) l = None.
Proof. intros H. apply list_find_None, Forall_forall. exact H. Qed.

End Keyed.

(** ** Adding to the cart in the React variants *)

Lemma Local_addToCart_present (b : Local.Book) (prev : list Local.CartItem) :
  (exists x, x ∈ prev /\ Local.id (Local.book x) = Local.id b) ->
  exists i x,
    prev !! i = Some x /\ Local.id (Local.book x) = Local.id b
    /\ (forall j y, prev !! j = Some y -> (j < i)%nat ->
                    Local.id (Local.book y) ≠ Local.id b)
    /\ Local.addToCart b prev
       = <[i := Local.mkItem (Local.book x) (Local.qty x + 1)]> prev.
Proof.
  intros H.
  destruct (find_key_present (fun x => Local.id (Local.book x)) prev _ H)
    as (i & x & Hf & Hi & Hk & Hmin).
  exists i, x. unfold Local.addToCart. now rewrite Hf.
Qed.

Lemma Local_addToCart_absent (b : Local.Book) (prev : list Local.CartItem) :
  (forall x, x ∈ prev -> Local.id (Local.book x) ≠ Local.id b) ->
  Local.addToCart b prev = prev ++ [Local.mkItem b 1].
Proof.
  intros H. unfold Local.addToCart.
  now rewrite (find_key_absent (fun x => Local.id (Local.book x)) prev _ H).
Qed.

Lemma Local_add_twice (b : Local.Book) :
  Local.addToCart b (Local.addToCart b []) = [Local.mkItem b 2].
Proof.
  unfold Local.addToCart. cbn. case_decide; [reflexivity|congruence].
Qed.

Lemma Form_addToCart_present (b : Form.Book) (c : list Form.CartItem) :
  (exists x, x ∈ c /\ Form.id (Form.item x) = Form.id b) ->
  exists i x,
    c !! i = Some x /\ Form.id (Form.item x) = Form.id b
    /\ (forall j y, c !! j = Some y -> (j < i)%nat ->
                    Form.id (Form.item y) ≠ Form.id b)
    /\ Form.addToCart b c
       = <[i := Form.mkItem (Form.item x) (Form.qty x + 1)]> c.
Proof.
  intros H.
  destruct (find_key_present (fun x => Form.id (Form.item x)) c _ H)
    as (i & x & Hf & Hi & Hk & Hmin).
  exists i, x. unfold Form.addToCart. now rewrite Hf.
Qed.

Lemma Form_addToCart_absent (b : Form.Book) (c : list Form.CartItem) :
  (forall x, x ∈ c -> Form.id (Form.item x) ≠ Form.id b) ->
  Form.addToCart b c = c ++ [Form.mkItem b 1].
Proof.
  intros H. unfold Form.addToCart.
  now rewrite (find_key_absent (fun x => Form.id (Form.item x)) c _ H).
Qed.

Lemma Form_add_twice (b : Form.Book) :
  Form.addToCart b (Form.addToCart b []) = [Form.mkItem b 2].
Proof.
  unfold Form.addToCart. cbn. case_decide; [reflexivity|congruence].
Qed.

(** ** The React form's [addToCart] on objects *)

Section Objects.
Import FormObjects.
Implicit Types (h : gmap nat Form.CartItem) (c : list nat).

Lemma view_lookup h c (j : nat) :
  allocated h c -> view h c !! j = c !! j ≫= (fun r => h !! r).
Proof.
  revert j. induction c as [|r c IH]; intros j Hal; [reflexivity|].
  destruct (Hal r) as [x Hx]; [apply list_elem_of_here|].
  unfold view. simpl. rewrite Hx. destruct j as [|j]; simpl; [now rewrite Hx|].
  apply IH. intros r' Hr'. apply Hal. now apply list_elem_of_further.
Qed.

Lemma view_length h c : allocated h c -> length (view h c) = length c.
Proof.
  induction c as [|r c IH]; intros Hal; [reflexivity|].
  destruct (Hal r) as [x Hx]; [apply list_elem_of_here|].
  unfold view. simpl. rewrite Hx. simpl. f_equal.
  apply IH. intros r' Hr'. apply Hal. now apply list_elem_of_further.
Qed.

Lemma find_view h c (k : string) :
  allocated h c ->
  match list_find (has_id h k) c with
  | Some (i, r) =>
      exists x, h !! r = Some x /\ c !! i = Some r
                /\ list_find (fun y => Form.id (Form.item y) = k) (view h c)
                   = Some (i, x)
  | None => list_find (fun y => Form.id (Form.item y) = k) (view h c) = None
  end.
Proof.
  induction c as [|r c IH]; intros Hal; [reflexivity|].
  destruct (Hal r) as [x Hx]; [apply list_elem_of_here|].
  assert (Hal' : allocated h c)
    by (intros r' Hr'; apply Hal; now apply list_elem_of_further).
  specialize (IH Hal'). unfold view in *. cbn. rewrite Hx. cbn.
  destruct (decide (has_id h k r)) as [Hr|Hr].
  - unfold has_id in Hr. rewrite Hx in Hr. simpl in Hr. injection Hr as Hr.
    rewrite decide_True by exact Hr. now exists x.
  - rewrite decide_False
      by (intros Hid; apply Hr; unfold has_id; rewrite Hx; simpl; congruence).
    destruct (list_find (has_id h k) c) as [[i r']|].
    + destruct IH as (y & Hy & Hi & ->). now exists y.
    + now rewrite IH.
Qed.

Lemma view_insert_other h c (r : nat) (v : Form.CartItem) :
  r ∉ c -> view (<[r := v]> h) c = view h c.
Proof.
  induction c as [|r' c IH]; intros Hr; [reflexivity|].
  apply not_elem_of_cons in Hr as [Hne Hr]. unfold view in *. csimpl.
  rewrite lookup_insert_ne by exact Hne. now rewrite IH.
Qed.

(** The updater on objects and the updater on values agree on what the
    component reads, provided the array holds distinct, live objects. *)
Lemma addToCart_objects (b : Form.Book) h c :
  NoDup c -> allocated h c ->
  let '(h', c') := addToCart b h c in
  view h' c' = Form.addToCart b (view h c)
  /\ NoDup c' /\ allocated h' c'.
Proof.
  intros Hnd Hal. unfold addToCart, Form.addToCart.
  pose proof (find_view h c (Form.id b) Hal) as Hfind.
  destruct (list_find (has_id h (Form.id b)) c) as [[i r]|] eqn:E.
  - destruct Hfind as (x & Hx & Hi & ->).
    set (f := fun x => Form.mkItem (Form.item x) (Form.qty x + 1)).
    assert (Hal' : allocated (alter f r h) c).
    { intros r' Hr'. rewrite lookup_alter_is_Some. now apply Hal. }
    split; [|split; [exact Hnd|exact Hal']].
    apply list_eq. intros j. rewrite (view_lookup _ _ _ Hal').
    destruct (decide (j = i)) as [->|Hji].
    + rewrite list_lookup_insert_eq
        by (rewrite view_length by exact Hal; now apply lookup_lt_Some in Hi).
      rewrite Hi. simpl. now rewrite lookup_alter_eq, Hx.
    + rewrite list_lookup_insert_ne by congruence.
      rewrite (view_lookup _ _ _ Hal).
      destruct (c !! j) as [r'|] eqn:Hj; [|reflexivity]. simpl.
      apply lookup_alter_ne. intros ->. apply Hji.
      now apply (NoDup_lookup c j i r').
  - set (r := fresh (dom h)).
    assert (Hr : h !! r = None) by (apply not_elem_of_dom, is_fresh).
    assert (Hrc : r ∉ c).
    { intros Hin. apply Hal in Hin as [x Hx]. congruence. }
    pose proof (view_insert_other h c r (Form.mkItem b 1) Hrc) as Hsame.
    split; [|split].
    + rewrite Hfind. unfold view in *. rewrite omap_app, Hsame. simpl.
      now rewrite lookup_insert_eq.
    + apply NoDup_app. split; [exact Hnd|]. split; [|apply NoDup_singleton].
      intros r' Hr' Hr''. apply list_elem_of_singleton in Hr''. now subst.
    + intros r' Hr'. apply elem_of_app in Hr' as [Hr'|Hr'].
      * destruct (decide (r = r')) as [<-|Hne]; [contradiction|].
        rewrite lookup_insert_ne by exact Hne. now apply Hal.
      * apply list_elem_of_singleton in Hr'. subst r'.
        rewrite lookup_insert_eq. eauto.
Qed.

End Objects.

(** ** The handlers of the page script *)

Ltac eff_unfold :=
  unfold Eff.state_of, Eff.trace_of, Eff.result_of, Eff.fetch, Eff.json,
    Eff.finally, Eff.try_catch,
    mbind, mret, Eff.M_bind, Eff.M_ret, Eff.bind, Eff.ret, Eff.get,
    Eff.modify, Eff.emit, Eff.lift, Eff.throw in *.

(** [renderOrder] redraws the summary and the two display flags only. *)
Lemma renderOrder_frame (s : Script.State) :
  let s' := Eff.state_of (Script.renderOrder s) in
  Script.books s' = Script.books s /\ Script.cart s' = Script.cart s
  /\ Script.form s' = Script.form s
  /\ Script.form_defaults s' = Script.form_defaults s
  /\ Script.bookList s' = Script.bookList s.
Proof.
  unfold Script.renderOrder. eff_unfold. simpl.
  case_decide; simpl; [tauto|].
  destruct (Script.order_rows _ _ _ _ _) as [[rows t]|e]; simpl; tauto.
Qed.

Lemma in_cart_true (c : list Script.CartItem) (bk : option nat) :
  Script.in_cart c bk = true <-> exists x, x ∈ c /\ Script.book x = bk.
Proof.
  unfold Script.in_cart. rewrite existsb_exists. split.
  - intros (x & Hx & Hb). exists x. split; [now apply list_elem_of_In|].
    now apply bool_decide_eq_true in Hb.
  - intros (x & Hx & Hb). exists x. split; [now apply list_elem_of_In|].
    now apply bool_decide_eq_true.
Qed.

Lemma in_cart_false (c : list Script.CartItem) (bk : option nat) :
  Script.in_cart c bk = false <-> forall x, x ∈ c -> Script.book x ≠ bk.
Proof.
  rewrite <- not_true_iff_false, in_cart_true. split.
  - intros H x Hx Hb. apply H. now exists x.
  - intros H (x & Hx & Hb). now apply (H x).
Qed.

(** The cart a handler leaves behind, whether or not it throws. *)
Lemma toggleBook_cart (index : nat) (s : Script.State) :
  let bk := Script.books_at (Script.books s) index in
  let s' := Eff.state_of (Script.toggleBook index s) in
  Script.books s' = Script.books s
  /\ Script.cart s'
     = if Script.in_cart (Script.cart s) bk
       then filter (fun c => Script.book c ≠ bk) (Script.cart s)
       else Script.cart s ++ [Script.mkItem bk 1].
Proof.
  intros bk. unfold Script.toggleBook. eff_unfold. cbv beta zeta iota. fold bk.
  destruct (Script.in_cart (Script.cart s) bk) eqn:E.
  - pose proof (renderOrder_frame
      (Script.set_cart (filter (fun c => Script.book c ≠ bk) (Script.cart s)) s))
      as (Hb & Hc & _).
    unfold Eff.state_of in *.
    destruct (Script.renderOrder _) as [[r s1] t1]. simpl in *. tauto.
  - pose proof (renderOrder_frame
      (Script.set_cart (Script.cart s ++ [Script.mkItem bk 1]) s))
      as (Hb & Hc & _).
    unfold Eff.state_of in *.
    destruct (Script.renderOrder _) as [[r s1] t1]. simpl in *. tauto.
Qed.

Lemma updateQuantity_cart (index : nat) (qty : Q) (s : Script.State) :
  let s' := Eff.state_of (Script.updateQuantity index qty s) in
  Script.books s' = Script.books s
  /\ Script.cart s'
     = match Script.cart s !! index with
       | Some item =>
           <[index := Script.mkItem (Script.book item) qty]> (Script.cart s)
       | None => Script.cart s
       end.
Proof.
  unfold Script.updateQuantity. eff_unfold. cbv beta zeta iota.
  destruct (Script.cart s !! index) as [item|] eqn:E.
  - pose proof (renderOrder_frame
      (Script.set_cart
         (<[index := Script.mkItem (Script.book item) qty]> (Script.cart s)) s))
      as (Hb & Hc & _).
    unfold Eff.state_of in *.
    destruct (Script.renderOrder _) as [[r s1] t1]. simpl in *. tauto.
  - simpl. tauto.
Qed.

Lemma removeItem_cart (index : nat) (s : Script.State) :
  let s' := Eff.state_of (Script.removeItem index s) in
  Script.books s' = Script.books s
  /\ Script.cart s' = delete index (Script.cart s).
Proof.
  unfold Script.removeItem. eff_unfold. cbv beta zeta iota.
  pose proof (renderOrder_frame
    (Script.set_cart (delete index (Script.cart s)) s)) as (Hb & Hc & _).
  unfold Eff.state_of in *.
  destruct (Script.renderOrder _) as [[r s1] t1]. simpl in *. tauto.
Qed.

(** C1 (as amended): in the two React variants, [addToCart] of a book whose
    id is already in the cart adds 1 to the quantity of the first item with
    that id and leaves the length of the cart alone; of a book whose id is
    absent, it appends one item of quantity 1; twice on an empty cart gives
    one item of quantity 2.  The form's updater, which writes the quantity
    into the item object in place, gives the same cart when the array holds
    distinct objects.  In the page script the only way into the cart
    is [toggleBook]: on a book that is not in the cart it appends one item
    of quantity 1, and on a book that is in the cart it removes the item. *)
Theorem C1_add_to_cart :
  (forall b prev,
      (exists x, x ∈ prev /\ Local.id (Local.book x) = Local.id b) ->
      exists i x,
        prev !! i = Some x /\ Local.id (Local.book x) = Local.id b
        /\ (forall j y, prev !! j = Some y -> (j < i)%nat ->
                        Local.id (Local.book y) ≠ Local.id b)
        /\ Local.addToCart b prev
           = <[i := Local.mkItem (Local.book x) (Local.qty x + 1)]> prev
        /\ length (Local.addToCart b prev) = length prev)
  /\ (forall b prev,
         (forall x, x ∈ prev -> Local.id (Local.book x) ≠ Local.id b) ->
         Local.addToCart b prev = prev ++ [Local.mkItem b 1])
  /\ (forall b, Local.addToCart b (Local.addToCart b []) = [Local.mkItem b 2])
  /\ (forall b c,
         (exists x, x ∈ c /\ Form.id (Form.item x) = Form.id b) ->
         exists i x,
           c !! i = Some x /\ Form.id (Form.item x) = Form.id b
           /\ (forall j y, c !! j = Some y -> (j < i)%nat ->
                           Form.id (Form.item y) ≠ Form.id b)
           /\ Form.addToCart b c
              = <[i := Form.mkItem (Form.item x) (Form.qty x + 1)]> c
           /\ length (Form.addToCart b c) = length c)
  /\ (forall b c,
         (forall x, x ∈ c -> Form.id (Form.item x) ≠ Form.id b) ->
         Form.addToCart b c = c ++ [Form.mkItem b 1])
  /\ (forall b, Form.addToCart b (Form.addToCart b []) = [Form.mkItem b 2])
  /\ (forall b h c,
         NoDup c -> FormObjects.allocated h c ->
         FormObjects.view (FormObjects.addToCart b h c).1
                          (FormObjects.addToCart b h c).2
         = Form.addToCart b (FormObjects.view h c))
  /\ (forall index s,
         let bk := Script.books_at (Script.books s) index in
         let after := Script.cart (Eff.state_of (Script.toggleBook index s)) in
         ((forall x, x ∈ Script.cart s -> Script.book x ≠ bk) ->
          after = Script.cart s ++ [Script.mkItem bk 1])
         /\ ((exists x, x ∈ Script.cart s /\ Script.book x = bk) ->
             after = filter (fun c => Script.book c ≠ bk) (Script.cart s)
             /\ forall x, x ∈ after -> Script.book x ≠ bk)).
Proof.
  split; [|split; [|split; [|split; [|split; [|split; [|split]]]]]].
  - intros b prev H.
    destruct (Local_addToCart_present b prev H) as (i & x & Hi & Hk & Hj & Heq).
    exists i, x. rewrite Heq, length_insert. tauto.
  - apply Local_addToCart_absent.
  - apply Local_add_twice.
  - intros b c H.
    destruct (Form_addToCart_present b c H) as (i & x & Hi & Hk & Hj & Heq).
    exists i, x. rewrite Heq, length_insert. tauto.
  - apply Form_addToCart_absent.
  - apply Form_add_twice.
  - intros b h c Hnd Hal. pose proof (addToCart_objects b h c Hnd Hal) as H.
    destruct (FormObjects.addToCart b h c) as [h' c']. apply H.
  - intros index s bk after.
    destruct (toggleBook_cart index s) as [_ Hc]. fold bk in Hc.
    fold after in Hc. split.
    + intros Habs. apply in_cart_false in Habs. now rewrite Habs in Hc.
    + intros Hpres. apply in_cart_true in Hpres. rewrite Hpres in Hc.
      split; [exact Hc|]. intros x Hx. rewrite Hc in Hx.
      now apply list_elem_of_filter in Hx.
Qed.

(** C1 as stated fails on the page script: ticking the same book twice
    leaves an empty cart, not one item of quantity 2. *)
Lemma C1_counterexample :
  let b := Script.mkBook "1" "A" "B" "G" 100 None in
  let f := Script.mkForm "" "" "" "" "" "" in
  let s0 := Script.mkState [b] [] [] Script.NoBooksYet "none" "none" f f in
  Script.cart (Script.run [Script.Toggle 0] s0) = [Script.mkItem (Some 0%nat) 1]
  /\ Script.cart (Script.run [Script.Toggle 0; Script.Toggle 0] s0) = []
  /\ ~ exists it,
         Script.cart (Script.run [Script.Toggle 0; Script.Toggle 0] s0) = [it]
         /\ Script.quantity it == 2.
Proof.
  cbv zeta. split; [reflexivity|]. split; [reflexivity|].
  intros (it & H & _). discriminate H.
Qed.

(** ** At most one cart item per book id *)

Lemma Local_step_distinct (op : Local.Op) (c : list Local.CartItem) :
  Local.distinct_ids c -> Local.distinct_ids (Local.step op c).
Proof.
  unfold Local.distinct_ids. intros Hc. destruct op as [b|bid n|bid|]; simpl.
  - unfold Local.addToCart.
    destruct (list_find _ c) as [[i x]|] eqn:E.
    + apply list_find_Some in E as (Hi & _ & _).
      now rewrite (keys_insert_same _ c i x).
    + apply NoDup_keys_snoc; [exact Hc|].
      apply list_find_None in E. rewrite Forall_forall in E. exact E.
  - unfold Local.setQty. eapply NoDup_keys_sublist; [apply sublist_filter|].
    rewrite keys_fmap_same; [exact Hc|]. intros x. now case_decide.
  - unfold Local.removeItem.
    eapply NoDup_keys_sublist; [apply sublist_filter|exact Hc].
  - apply NoDup_nil_2.
Qed.

Lemma Local_run_distinct (ops : list Local.Op) (c : list Local.CartItem) :
  Local.distinct_ids c -> Local.distinct_ids (Local.run ops c).
Proof.
  revert c. induction ops as [|op ops IH]; intros c Hc; [exact Hc|].
  apply IH. now apply Local_step_distinct.
Qed.

Lemma Form_step_distinct (op : Form.Op) (c : list Form.CartItem) :
  Form.distinct_ids c -> Form.distinct_ids (Form.step op c).
Proof.
  unfold Form.distinct_ids. intros Hc. destruct op as [b|bid n|bid]; simpl.
  - unfold Form.addToCart.
    destruct (list_find _ c) as [[i x]|] eqn:E.
    + apply list_find_Some in E as (Hi & _ & _).
      now rewrite (keys_insert_same _ c i x).
    + apply NoDup_keys_snoc; [exact Hc|].
      apply list_find_None in E. rewrite Forall_forall in E. exact E.
  - unfold Form.updateQty.
    rewrite keys_fmap_same; [exact Hc|]. intros x. now case_decide.
  - unfold Form.removeFromCart.
    eapply NoDup_keys_sublist; [apply sublist_filter|exact Hc].
Qed.

Lemma Form_run_distinct (ops : list Form.Op) (c : list Form.CartItem) :
  Form.distinct_ids c -> Form.distinct_ids (Form.run ops c).
Proof.
  revert c. induction ops as [|op ops IH]; intros c Hc; [exact Hc|].
  apply IH. now apply Form_step_distinct.
Qed.

Lemma handler_books (op : Script.Op) (s : Script.State) :
  Script.books (Eff.state_of (Script.handler op s)) = Script.books s.
Proof.
  destruct op as [i|i n|i]; simpl.
  - apply toggleBook_cart.
  - apply updateQuantity_cart.
  - apply removeItem_cart.
Qed.

Lemma run_books (ops : list Script.Op) (s : Script.State) :
  Script.books (Script.run ops s) = Script.books s.
Proof.
  revert s. induction ops as [|op ops IH]; intros s; [reflexivity|].
  simpl. unfold Script.run in IH. now rewrite IH, handler_books.
Qed.

Lemma books_at_Some (bs : list Script.Book) (index i : nat) :
  Script.books_at bs index = Some i -> (i < length bs)%nat.
Proof. unfold Script.books_at. case_decide; congruence. Qed.

Lemma handler_refs_ok (op : Script.Op) (s : Script.State) :
  Script.refs_ok s -> Script.refs_ok (Eff.state_of (Script.handler op s)).
Proof.
  unfold Script.refs_ok, Script.cart_refs. intros [Hnd Hin].
  rewrite handler_books. destruct op as [index|index n|index]; simpl.
  - destruct (toggleBook_cart index s) as [_ ->].
    destruct (Script.in_cart _ _) eqn:E.
    + split.
      * eapply NoDup_keys_sublist; [apply sublist_filter|exact Hnd].
      * intros i Hi. apply Hin. eapply elem_of_sublist; [exact Hi|].
        apply fmap_sublist, sublist_filter.
    + pose proof (proj1 (in_cart_false _ _) E) as Habs. split.
      * apply NoDup_keys_snoc; [exact Hnd|exact Habs].
      * intros i Hi. rewrite fmap_app in Hi.
        apply elem_of_app in Hi as [Hi|Hi]; [now apply Hin|].
        apply list_elem_of_singleton in Hi. simpl in Hi.
        symmetry in Hi. now apply books_at_Some in Hi.
  - destruct (updateQuantity_cart index n s) as [_ ->].
    destruct (Script.cart s !! index) as [item|] eqn:E; [|now split].
    now rewrite (keys_insert_same _ _ index item).
  - destruct (removeItem_cart index s) as [_ ->]. split.
    + eapply NoDup_keys_sublist; [apply sublist_delete|exact Hnd].
    + intros i Hi. apply Hin. eapply elem_of_sublist; [exact Hi|].
      apply fmap_sublist, sublist_delete.
Qed.

Lemma run_refs_ok (ops : list Script.Op) (s : Script.State) :
  Script.refs_ok s -> Script.refs_ok (Script.run ops s).
Proof.
  revert s. induction ops as [|op ops IH]; intros s Hs; [exact Hs|].
  apply IH. now apply handler_refs_ok.
Qed.

(** Distinct references denote distinct ids when the catalog's ids are
    unique. *)
Lemma refs_ok_ids (s : Script.State) :
  Script.refs_ok s -> NoDup (Script.id <$> Script.books s) ->
  NoDup (Script.cart_ids s).
Proof.
  intros [Hnd Hin] Hids. unfold Script.cart_ids, Script.cart_refs in *.
  change (NoDup ((fun r => Script.id <$> Script.deref (Script.books s) r)
                   ∘ Script.book <$> Script.cart s)).
  rewrite list_fmap_compose.
  apply NoDup_fmap_2_strong; [|exact Hnd].
  intros [i|] [j|] Hi Hj Heq; simpl in *; try reflexivity.
  - apply Hin in Hi. apply Hin in Hj.
    destruct (lookup_lt_is_Some_2 _ _ Hi) as [bi Hbi].
    destruct (lookup_lt_is_Some_2 _ _ Hj) as [bj Hbj].
    rewrite Hbi, Hbj in Heq. simpl in Heq. f_equal.
    apply (NoDup_lookup _ i j (Script.id bi) Hids).
    + now rewrite list_lookup_fmap, Hbi.
    + rewrite list_lookup_fmap, Hbj. simpl. congruence.
  - apply Hin in Hi. destruct (lookup_lt_is_Some_2 _ _ Hi) as [bi Hbi].
    rewrite Hbi in Heq. discriminate.
  - apply Hin in Hj. destruct (lookup_lt_is_Some_2 _ _ Hj) as [bj Hbj].
    rewrite Hbj in Heq. discriminate.
Qed.

(** Submitting leaves the cart as it is or empties it. *)
Lemma Script_submit_cart (o : Eff.Outcome Script.Reply) (s : Script.State) :
  let s' := Eff.state_of (Script.submit o s) in
  Script.books s' = Script.books s
  /\ (Script.cart s' = Script.cart s \/ Script.cart s' = []).
Proof.
  unfold Script.submit. eff_unfold. cbv beta zeta iota.
  case_decide as Hlen; [simpl; tauto|].
  destruct (Script.order_total _ _ _) as [t|e]; [|simpl; tauto].
  destruct o as [e|ok [e|[|oid]]]; simpl; tauto.
Qed.

Lemma Form_submit_cart (o : Eff.Outcome Form.Reply) (s : Form.State) :
  let s' := Eff.state_of (Form.submitOrder o s) in
  Form.cart s' = Form.cart s \/ Form.cart s' = [].
Proof.
  unfold Form.submitOrder. eff_unfold. cbv beta zeta iota.
  case_decide as Hlen; [simpl; tauto|].
  destruct o as [e|[|] [e|[|m]]]; simpl; tauto.
Qed.

Lemma Script_submit_refs_ok (o : Eff.Outcome Script.Reply) (s : Script.State) :
  Script.refs_ok s -> Script.refs_ok (Eff.state_of (Script.submit o s)).
Proof.
  unfold Script.refs_ok, Script.cart_refs. intros Hs.
  destruct (Script_submit_cart o s) as [-> [-> | ->]]; [exact Hs|].
  split; [apply NoDup_nil_2|]. intros i Hi. now apply elem_of_nil in Hi.
Qed.

Lemma Form_submit_distinct (o : Eff.Outcome Form.Reply) (s : Form.State) :
  Form.distinct_ids (Form.cart s) ->
  Form.distinct_ids (Form.cart (Eff.state_of (Form.submitOrder o s))).
Proof.
  intros Hs. destruct (Form_submit_cart o s) as [-> | ->]; [exact Hs|].
  apply NoDup_nil_2.
Qed.

(** C8: at most one cart item per book id, in every cart reached from a
    cart that has the property (the empty cart in particular) by the cart
    operations of each variant: add, set quantity, remove and clear in the
    React components; tick, set quantity and remove in the page script,
    whose books are told apart by reference and whose catalog ids are
    taken to be unique.  Submitting, which empties the cart on success,
    keeps the property too. *)
Theorem C8_one_item_per_book_id
    (ops : list Local.Op) (c : list Local.CartItem)
    (fops : list Form.Op) (fc : list Form.CartItem)
    (fo : Eff.Outcome Form.Reply) (fs : Form.State)
    (sops : list Script.Op) (s : Script.State)
    (so : Eff.Outcome Script.Reply) :
  Local.distinct_ids c ->
  Form.distinct_ids fc ->
  Script.refs_ok s ->
  NoDup (Script.id <$> Script.books s) ->
  Local.distinct_ids (Local.run ops c)
  /\ Local.distinct_ids (Local.run ops [])
  /\ Form.distinct_ids (Form.run fops fc)
  /\ Form.distinct_ids (Form.run fops [])
  /\ Form.distinct_ids
       (Form.cart (Eff.state_of
                     (Form.submitOrder fo (Form.set_cart (Form.run fops fc) fs))))
  /\ Script.refs_ok (Script.run sops s)
  /\ NoDup (Script.cart_ids (Script.run sops s))
  /\ NoDup (Script.cart_ids (Eff.state_of (Script.submit so (Script.run sops s)))).
Proof.
  intros Hc Hfc Hs Hids. split; [now apply Local_run_distinct|].
  split; [apply Local_run_distinct, NoDup_nil_2|].
  split; [now apply Form_run_distinct|].
  split; [apply Form_run_distinct, NoDup_nil_2|].
  split; [apply Form_submit_distinct; simpl; now apply Form_run_distinct|].
  split; [now apply run_refs_ok|].
  split.
  - apply refs_ok_ids; [now apply run_refs_ok|]. now rewrite run_books.
  - apply refs_ok_ids; [now apply Script_submit_refs_ok, run_refs_ok|].
    destruct (Script_submit_cart so (Script.run sops s)) as [-> _].
    now rewrite run_books.
Qed.

Lemma C8_one_item_per_book_id_witness :
  let a := Local.mkBook "1" "A" "" "" "" 100 (Some 20) "" in
  let f := Form.mkBook "1" "A" "" "" "" 100 "" "" in
  let b1 := Script.mkBook "1" "A" "B" "G" 100 None in
  let b2 := Script.mkBook "2" "C" "D" "G" 50 None in
  let fm := Script.mkForm "" "" "" "" "" "" in
  let s0 := Script.mkState [b1; b2] [] [] Script.NoBooksYet "none" "none" fm fm in
  Local.distinct_ids (Local.run [Local.Add a; Local.Add a; Local.SetQty "1" 0] [])
  /\ Form.distinct_ids (Form.run [Form.Add f; Form.Add f] [])
  /\ NoDup (Script.cart_ids
              (Script.run [Script.Toggle 0; Script.Toggle 1;
                           Script.UpdateQuantity 0 3] s0)).
Proof.
  intros a f b1 b2 fm s0.
  assert (Hs : Script.refs_ok s0).
  { split; [apply NoDup_nil_2|]. intros i Hi. inversion Hi. }
  assert (Hids : NoDup (Script.id <$> Script.books s0)) by compute_done.
  set (k := Form.mkCheckout "" "" "" "" "" None "").
  set (fs := Form.mkState "" [] (Form.mkSearch "" "" "" None None) []
               false None k false "").
  destruct (C8_one_item_per_book_id
              [Local.Add a; Local.Add a; Local.SetQty "1" 0] []
              [Form.Add f; Form.Add f] []
              (Eff.HttpReply true (inr (Form.mkReply None))) fs
              [Script.Toggle 0; Script.Toggle 1; Script.UpdateQuantity 0 3] s0
              (Eff.HttpReply true (inr (Script.mkReply None)))
              NoDup_nil_2 NoDup_nil_2 Hs Hids)
    as (H1 & _ & H2 & _ & _ & _ & H3 & _).
  exact (conj H1 (conj H2 H3)).
Defined.

(** ** Setting a quantity *)

Lemma Math_max_below (n : Q) : n < 1 -> JS.Math_max 1 n = 1.
Proof.
  intros Hn. unfold JS.Math_max, Qmax, GenericMinMax.gmax.
  destruct (1 ?= n) eqn:E; try reflexivity.
  apply Qlt_alt in E. lra.
Qed.

(** [updateQty] of the React form clamps at 1 and keeps every item. *)
Lemma Form_updateQty_clamps (bookId : string) (n : Q) (c : list Form.CartItem) :
  n < 1 ->
  length (Form.updateQty bookId n c) = length c
  /\ (forall x, x ∈ c -> Form.id (Form.item x) = bookId ->
                Form.mkItem (Form.item x) 1 ∈ Form.updateQty bookId n c)
  /\ (forall y, y ∈ Form.updateQty bookId n c ->
                Form.id (Form.item y) = bookId -> Form.qty y = 1).
Proof.
  intros Hn. unfold Form.updateQty. rewrite (Math_max_below n Hn).
  split; [apply length_fmap|]. split.
  - intros x Hx Hid. apply list_elem_of_fmap. exists x.
    split; [|exact Hx]. now rewrite decide_True.
  - intros y Hy Hid. apply list_elem_of_fmap in Hy as (x & -> & Hx).
    case_decide as Hd; [reflexivity|]. contradiction.
Qed.

(** [setQty] of the local component clamps at 1 and keeps the item. *)
Lemma Local_setQty_clamps (bookId : string) (n : Q) (prev : list Local.CartItem) :
  n < 1 ->
  (forall x, x ∈ prev -> Local.id (Local.book x) = bookId ->
             Local.mkItem (Local.book x) 1 ∈ Local.setQty bookId n prev)
  /\ (forall y, y ∈ Local.setQty bookId n prev ->
                Local.id (Local.book y) = bookId -> Local.qty y = 1).
Proof.
  intros Hn. unfold Local.setQty. rewrite (Math_max_below n Hn). split.
  - intros x Hx Hid. apply list_elem_of_filter. split; [simpl; lra|].
    apply list_elem_of_fmap. exists x. split; [|exact Hx].
    now rewrite decide_True.
  - intros y Hy Hid. apply list_elem_of_filter in Hy as [_ Hy].
    apply list_elem_of_fmap in Hy as (x & -> & Hx).
    case_decide as Hd; [reflexivity|]. contradiction.
Qed.

(** [updateQuantity] of the page script stores the number it is given. *)
Lemma Script_updateQuantity_stores (index : nat) (qty : Q)
    (item : Script.CartItem) (s : Script.State) :
  Script.cart s !! index = Some item ->
  Script.cart (Eff.state_of (Script.updateQuantity index qty s)) !! index
  = Some (Script.mkItem (Script.book item) qty).
Proof.
  intros Hi. destruct (updateQuantity_cart index qty s) as [_ ->].
  rewrite Hi. apply list_lookup_insert_eq. now apply lookup_lt_Some in Hi.
Qed.

(** C2, on the page script: setting the quantity of a cart line to 0 (the
    number read from an emptied input) stores 0; the item stays in the cart
    with quantity 0 and is shown and totalled at 0. *)
Theorem C2_script_quantity_not_clamped :
  let b := Script.mkBook "1" "A" "B" "G" 100 None in
  let f := Script.mkForm "" "" "" "" "" "" in
  let s := Script.mkState [b] [Script.mkItem (Some 0%nat) 2] [] Script.NoBooksYet
             "block" "none" f f in
  let s' := Eff.state_of (Script.updateQuantity 0 0 s) in
  Script.cart s' = [Script.mkItem (Some 0%nat) 0]
  /\ Script.orderSummary s'
     = Script.OrderTable [Script.mkOrderRow 1 "A" "B" 0 0] 0.
Proof. cbv zeta. split; reflexivity. Qed.

(** ** Submitting an order *)

Lemma order_total_valid (bs : list Script.Book) (items : list Script.CartItem)
    (sum : Q) :
  Forall (fun c => is_Some (Script.deref bs (Script.book c))) items ->
  exists t, Script.order_total bs items sum = Eff.Ok t.
Proof.
  revert sum. induction items as [|i rest IH]; intros sum Hv; simpl.
  - now exists sum.
  - apply Forall_cons in Hv as [[b Hb] Hrest]. rewrite Hb. now apply IH.
Qed.

(** C5: with an empty cart, submitting alerts the user and returns; the
    state is unchanged and nothing is sent, whatever the network would have
    answered.  This holds in the page script and in the React form. *)
Theorem C5_empty_cart_blocks_submit
    (ss : Script.State) (so : Eff.Outcome Script.Reply)
    (fs : Form.State) (fo : Eff.Outcome Form.Reply) :
  Script.cart ss = [] ->
  Form.cart fs = [] ->
  Script.submit so ss
  = (Eff.Ok tt, ss,
     [Eff.PreventDefault;
      Eff.Alert "Please select at least one book before confirming order."])
  /\ Eff.no_network (Eff.trace_of (Script.submit so ss))
  /\ Form.submitOrder fo fs
     = (Eff.Ok tt, fs, [Eff.PreventDefault; Eff.Alert "Your cart is empty."])
  /\ Eff.no_network (Eff.trace_of (Form.submitOrder fo fs)).
Proof.
  intros Hs Hf.
  assert (H1 : Script.submit so ss
               = (Eff.Ok tt, ss,
                  [Eff.PreventDefault;
                   Eff.Alert "Please select at least one book before confirming order."])).
  { unfold Script.submit. eff_unfold. cbv beta zeta iota. now rewrite Hs. }
  assert (H2 : Form.submitOrder fo fs
               = (Eff.Ok tt, fs,
                  [Eff.PreventDefault; Eff.Alert "Your cart is empty."])).
  { unfold Form.submitOrder. eff_unfold. cbv beta zeta iota. now rewrite Hf. }
  rewrite H1, H2. unfold Eff.no_network, Eff.trace_of. simpl.
  repeat split; repeat constructor.
Qed.

Lemma C5_empty_cart_blocks_submit_witness :
  let b := Script.mkBook "1" "A" "B" "G" 100 None in
  let f := Script.mkForm "Ana" "ana@example.org" "0917" "" "Ayala" "Sunday" in
  let ss := Script.mkState [b] [] [] Script.NoBooksYet "none" "block" f f in
  let k := Form.mkCheckout "Ana" "ana@example.org" "0917" "" "Feast ayala - Sunday"
             None "" in
  let fs := Form.mkState "sheet" [] (Form.mkSearch "" "" "" None None) []
              false None k false "" in
  Eff.no_network
    (Eff.trace_of (Script.submit (Eff.HttpReply true (inr (Script.mkReply (Some "7")))) ss))
  /\ Eff.state_of (Form.submitOrder (Eff.HttpReply true (inr (Form.mkReply None))) fs)
     = fs.
Proof.
  intros b f ss k fs.
  destruct (C5_empty_cart_blocks_submit ss
              (Eff.HttpReply true (inr (Script.mkReply (Some "7"))))
              fs (Eff.HttpReply true (inr (Form.mkReply None)))
              eq_refl eq_refl) as (_ & H1 & H2 & _).
  split; [exact H1|]. now rewrite H2.
Defined.

(** What the page script does with each outcome of its request, when the
    cart is not empty and every line holds a book of the catalog. *)
Lemma Script_submit_rejected (o : Eff.Outcome Script.Reply) (s : Script.State) :
  Script.cart s ≠ [] ->
  Forall (fun c => is_Some (Script.deref (Script.books s) (Script.book c)))
         (Script.cart s) ->
  Script.rejects o ->
  exists order err,
    Script.submit o s
    = (Eff.Ok tt, s,
       [Eff.PreventDefault; Eff.Fetch Script.API_URL order;
        Eff.Alert "Failed to submit order. Please try again.";
        Eff.ConsoleError err]).
Proof.
  intros Hne Hv Hrej.
  destruct (order_total_valid _ _ 0 Hv) as [t Ht].
  unfold Script.submit. eff_unfold. cbv beta zeta iota.
  rewrite decide_False by (destruct (Script.cart s); [congruence|discriminate]).
  rewrite Ht. cbv beta zeta iota.
  destruct o as [e|ok [e|[|oid]]]; simpl in Hrej; try contradiction;
    simpl; eauto.
Qed.

Lemma Form_submit_failed (o : Eff.Outcome Form.Reply) (e : Eff.Error)
    (s : Form.State) :
  Form.cart s ≠ [] ->
  Form.failure_of o = Some e ->
  exists form,
    Form.submitOrder o s
    = (Eff.Ok tt,
       Form.set_submitting false
         (Form.set_successMsg "" (Form.set_submitting true s)),
       [Eff.PreventDefault; Eff.Fetch (Form.API_BASE +:+ "/reserve") form;
        Eff.Alert (Form.notice e)]).
Proof.
  intros Hne Hf.
  unfold Form.submitOrder. eff_unfold. cbv beta zeta iota.
  rewrite decide_False by (destruct (Form.cart s); [congruence|discriminate]).
  destruct o as [e'|[|] [e'|[|m]]]; simpl in Hf; inversion Hf; subst;
    simpl; eauto.
Qed.

(** When the submission fails in the eyes of the code, the cart and the
    fields the user filled in are as before and the user is alerted.  In
    the React form a failure is a failed request, a response that is not
    [ok], a body that is not JSON or the body [null]; the alert carries the
    error's message, and the success message shown before is gone.  In the
    page script a failure is a rejected promise: a failed request, a body
    that is not JSON or the body [null]; the whole state is as before. *)
Lemma Submit_failure_keeps_cart
    (fo : Eff.Outcome Form.Reply) (e : Eff.Error) (fs : Form.State)
    (so : Eff.Outcome Script.Reply) (ss : Script.State) :
  Form.cart fs ≠ [] ->
  Form.failure_of fo = Some e ->
  Script.cart ss ≠ [] ->
  Forall (fun c => is_Some (Script.deref (Script.books ss) (Script.book c)))
         (Script.cart ss) ->
  Script.rejects so ->
  (let r := Form.submitOrder fo fs in
   Form.cart (Eff.state_of r) = Form.cart fs
   /\ Form.checkout (Eff.state_of r) = Form.checkout fs
   /\ Form.submitting (Eff.state_of r) = false
   /\ Form.successMsg (Eff.state_of r) = ""
   /\ Eff.Alert (Form.notice e) ∈ Eff.trace_of r)
  /\ (let r := Script.submit so ss in
      Eff.state_of r = ss
      /\ Eff.Alert "Failed to submit order. Please try again." ∈ Eff.trace_of r).
Proof.
  intros Hfne Hfail Hsne Hv Hrej. split.
  - destruct (Form_submit_failed fo e fs Hfne Hfail) as [form ->].
    unfold Eff.state_of, Eff.trace_of. simpl.
    repeat split. repeat constructor.
  - destruct (Script_submit_rejected so ss Hsne Hv Hrej) as (order & err & ->).
    unfold Eff.state_of, Eff.trace_of. simpl. split; [reflexivity|repeat constructor].
Qed.

(** C6: the page script takes a refused order for a confirmed one.  The
    [submit] listener never reads [res.ok]: when the sheet answers with an
    error status and a body that is JSON (anything but [null]), the success
    branch runs.  With a cart that is not empty, the user is told that the
    order is confirmed, the form is reset, the cart is emptied, and no
    failure notice is shown. *)
Theorem C6_script_confirms_refused_order (oid : option string) (s : Script.State) :
  Script.cart s ≠ [] ->
  Forall (fun c => is_Some (Script.deref (Script.books s) (Script.book c)))
         (Script.cart s) ->
  let res := Script.submit (Eff.HttpReply false (inr (Script.mkReply oid))) s in
  Script.cart (Eff.state_of res) = []
  /\ Script.form (Eff.state_of res) = Script.form_defaults s
  /\ Eff.Alert ("Order confirmed! Your Order ID: " +:+ default "undefined" oid)
     ∈ Eff.trace_of res
  /\ Eff.Alert "Failed to submit order. Please try again." ∉ Eff.trace_of res.
Proof.
  intros Hne Hv.
  destruct (order_total_valid _ _ 0 Hv) as [t Ht].
  unfold Script.submit. eff_unfold. cbv beta zeta iota.
  rewrite decide_False by (destruct (Script.cart s); [congruence|discriminate]).
  rewrite Ht. cbv beta zeta iota. simpl.
  split; [reflexivity|]. split; [reflexivity|]. split; [repeat constructor|].
  intros H. apply list_elem_of_In in H. simpl in H.
  destruct H as [H|[H|[H|[]]]]; discriminate H.
Qed.

Lemma C6_script_confirms_refused_order_witness :
  let b := Script.mkBook "1" "A" "B" "G" 100 None in
  let f := Script.mkForm "Ana" "ana@example.org" "0917" "" "Ayala" "Sunday" in
  let d := Script.mkForm "" "" "" "" "" "" in
  let s := Script.mkState [b] [Script.mkItem (Some 0%nat) 2] [] Script.NoBooksYet
             "none" "block" f d in
  let res := Script.submit (Eff.HttpReply false (inr (Script.mkReply None))) s in
  Script.cart (Eff.state_of res) = []
  /\ Eff.Alert "Order confirmed! Your Order ID: undefined" ∈ Eff.trace_of res.
Proof.
  intros b f d s res.
  assert (Hv : Forall (fun c => is_Some (Script.deref (Script.books s) (Script.book c)))
                      (Script.cart s)).
  { repeat constructor. simpl. eauto. }
  destruct (C6_script_confirms_refused_order None s) as (H1 & _ & H2 & _);
    [discriminate | exact Hv |].
  split; [exact H1|exact H2].
Defined.

(** ** Printing the slip *)

(** C9: [printSlip] asks the browser to print and does nothing else: the
    state, hence the cart and its total, is unchanged and nothing is sent. *)
Theorem C9_print_slip_is_local (s : Local.State) :
  Local.printSlip s = (Eff.Ok tt, s, [Eff.WindowPrint])
  /\ Local.cart (Eff.state_of (Local.printSlip s)) = Local.cart s
  /\ Local.total (Local.cart (Eff.state_of (Local.printSlip s)))
     = Local.total (Local.cart s)
  /\ Eff.no_network (Eff.trace_of (Local.printSlip s)).
Proof.
  split; [reflexivity|]. split; [reflexivity|]. split; [reflexivity|].
  unfold Eff.no_network. simpl. repeat constructor.
Qed.

(** ** Totals *)

Lemma toggleBook_state (index : nat) (s : Script.State) :
  let bk := Script.books_at (Script.books s) index in
  Eff.state_of (Script.toggleBook index s)
  = Eff.state_of
      (Script.renderOrder
         (Script.set_cart
            (if Script.in_cart (Script.cart s) bk
             then filter (fun c => Script.book c ≠ bk) (Script.cart s)
             else Script.cart s ++ [Script.mkItem bk 1]) s)).
Proof.
  intros bk. unfold Script.toggleBook. eff_unfold. cbv beta zeta iota. fold bk.
  destruct (Script.in_cart (Script.cart s) bk);
    destruct (Script.renderOrder _) as [[r s1] t1]; reflexivity.
Qed.

Lemma updateQuantity_state (index : nat) (qty : Q) (s : Script.State) :
  Eff.state_of (Script.updateQuantity index qty s)
  = match Script.cart s !! index with
    | Some item =>
        Eff.state_of
          (Script.renderOrder
             (Script.set_cart
                (<[index := Script.mkItem (Script.book item) qty]> (Script.cart s))
                s))
    | None => s
    end.
Proof.
  unfold Script.updateQuantity. eff_unfold. cbv beta zeta iota.
  destruct (Script.cart s !! index) as [item|]; [|reflexivity].
  destruct (Script.renderOrder _) as [[r s1] t1]; reflexivity.
Qed.

Lemma removeItem_state (index : nat) (s : Script.State) :
  Eff.state_of (Script.removeItem index s)
  = Eff.state_of
      (Script.renderOrder (Script.set_cart (delete index (Script.cart s)) s)).
Proof.
  unfold Script.removeItem. eff_unfold. cbv beta zeta iota.
  destruct (Script.renderOrder _) as [[r s1] t1]; reflexivity.
Qed.

(** The loop of [renderOrder] and the [reduce] of the submit handler add
    the same amounts in the same order. *)
Lemma order_rows_total (bs : list Script.Book) (items : list Script.CartItem)
    (idx : nat) (total : Q) (html : list Script.OrderRow) :
  match Script.order_rows bs items idx total html with
  | Eff.Ok (rows, t) =>
      Script.order_total bs items total = Eff.Ok t
      /\ exists new,
           rows = html ++ new
           /\ t = fold_left (fun acc r => acc + Script.row_price r) new total
           /\ Forall2 (fun item r =>
                         exists b, Script.deref bs (Script.book item) = Some b
                                   /\ Script.row_qty r = Script.quantity item
                                   /\ Script.row_price r
                                      = Script.unit_price b * Script.quantity item)
                      items new
  | Eff.Thrown e => Script.order_total bs items total = Eff.Thrown e
  end.
Proof.
  revert idx total html.
  induction items as [|item rest IH]; intros idx total html; simpl.
  - split; [reflexivity|]. exists []. rewrite app_nil_r. repeat split.
    constructor.
  - destruct (Script.deref bs (Script.book item)) as [b|] eqn:Hb; [|reflexivity].
    specialize (IH (S idx) (total + Script.unit_price b * Script.quantity item)
                   (html ++ [Script.mkOrderRow (idx + 1) (Script.title b)
                               (Script.author b) (Script.quantity item)
                               (Script.unit_price b * Script.quantity item)])).
    destruct (Script.order_rows _ _ _ _ _) as [[rows t]|e]; [|exact IH].
    destruct IH as (Ht & new & Hrows & Hsum & Hall). split; [exact Ht|].
    eexists (_ :: new). rewrite Hrows, <- app_assoc. split; [reflexivity|].
    split; [exact Hsum|]. constructor; [|exact Hall]. exists b. now repeat split.
Qed.








(** The scenario of the specification: one book of price 100 at 20 percent,
    added twice. *)
Example Local_scenario_total :
  let b := Local.mkBook "1" "A" "" "" "" 100 (Some 20) "" in
  Local.run [Local.Add b; Local.Add b] [] = [Local.mkItem b 2]
  /\ Local.total (Local.run [Local.Add b; Local.Add b] []) = 160.
Proof. split; reflexivity. Qed.



(** ** Filtering the catalog *)

Lemma filter_idemp {A} (P : A -> Prop) `{!forall x, Decision (P x)} (l : list A) :
  filter P (filter P l) = filter P l.
Proof.
  rewrite list_filter_filter. apply list_filter_iff. tauto.
Qed.

(** The rows drawn by [renderBooks] are those of the books that pass the
    test, in catalog order, each carrying its catalog index. *)
Lemma book_rows_books (filter filterValue : string) (c : list Script.CartItem)
    (pre bs : list Script.Book) :
  omap (fun r => (pre ++ bs) !! Script.row_index r)
       (Script.book_rows filter filterValue c (length pre) bs)
  = base.filter (fun b => Script.skipped filter filterValue b = false) bs.
Proof.
  revert pre. induction bs as [|b rest IH]; intros pre; [reflexivity|].
  simpl. specialize (IH (pre ++ [b])).
  rewrite length_app, Nat.add_1_r, <- app_assoc in IH. simpl in IH.
  destruct (Script.skipped filter filterValue b) eqn:E.
  - rewrite filter_cons_False by congruence. exact IH.
  - rewrite filter_cons_True by exact E. simpl.
    rewrite list_lookup_middle by reflexivity. f_equal. exact IH.
Qed.

Lemma displayed_filter (filter filterValue : string) (c : list Script.CartItem)
    (bs : list Script.Book) :
  Script.displayed filter filterValue c bs
  = base.filter (fun b => Script.skipped filter filterValue b = false) bs.
Proof. apply (book_rows_books filter filterValue c []). Qed.

(** C7: filtering returns the matching books of the catalog in catalog
    order, leaves the catalog as it was, and filtering the result again
    with the same filter changes nothing.  This holds for [filtered] of the
    React form and for the books [renderBooks] of the page script puts on
    the page. *)
Theorem C7_filter_stable_idempotent :
  (forall C F,
      Form.applyFilter C F `sublist_of` C
      /\ (forall b, b ∈ Form.applyFilter C F <-> Form.keeps F b = true /\ b ∈ C)
      /\ Form.applyFilter (Form.applyFilter C F) F = Form.applyFilter C F)
  /\ (forall s, Form.filtered s = Form.applyFilter (Form.books s) (Form.search s))
  /\ (forall filter filterValue s,
         let s' := Eff.state_of (Script.renderBooks filter filterValue s) in
         let shown := Script.displayed filter filterValue (Script.cart s)
                        (Script.books s) in
         Script.books s' = Script.books s
         /\ Script.cart s' = Script.cart s
         /\ Script.bookList s'
            = Script.book_rows filter filterValue (Script.cart s) 0 (Script.books s)
         /\ shown `sublist_of` Script.books s
         /\ (forall b, b ∈ shown
                       <-> Script.skipped filter filterValue b = false
                           /\ b ∈ Script.books s)
         /\ Script.displayed filter filterValue (Script.cart s) shown = shown).
Proof.
  split; [|split].
  - intros C F. unfold Form.applyFilter. split; [apply sublist_filter|].
    split; [|apply filter_idemp].
    intros b. rewrite list_elem_of_filter. now rewrite Is_true_true.
  - reflexivity.
  - intros filter filterValue s s' shown. subst s' shown.
    rewrite !displayed_filter.
    split; [reflexivity|]. split; [reflexivity|]. split; [reflexivity|].
    split; [apply sublist_filter|]. split; [|apply filter_idemp].
    intros b. now rewrite list_elem_of_filter.
Qed.

(** * Further properties *)

(** ** The page script: cart actions *)

Lemma filter_all {A} (P : A -> Prop) `{!forall x, Decision (P x)} (l : list A) :
  Forall P l -> filter P l = l.
Proof.
  induction 1 as [|x l Hx Hl IH]; [reflexivity|].
  rewrite filter_cons_True by exact Hx. now rewrite IH.
Qed.

Lemma filter_none {A} (P : A -> Prop) `{!forall x, Decision (P x)} (l : list A) :
  Forall (fun x => ~ P x) l -> filter P l = [].
Proof.
  induction 1 as [|x l Hx Hl IH]; [reflexivity|].
  rewrite filter_cons_False by exact Hx. exact IH.
Qed.

(** X1: ticking a book and unticking it again.  If the book was not in the
    cart, the cart is as before.  If it was, its line has left its place:
    it is now the last line, with quantity 1. *)
Theorem X1_toggle_twice (index : nat) (s : Script.State) :
  let bk := Script.books_at (Script.books s) index in
  Script.cart (Script.run [Script.Toggle index; Script.Toggle index] s)
  = if Script.in_cart (Script.cart s) bk
    then filter (fun c => Script.book c ≠ bk) (Script.cart s)
         ++ [Script.mkItem bk 1]
    else Script.cart s.
Proof.
  intros bk. simpl.
  destruct (toggleBook_cart index s) as [Hb1 Hc1]. fold bk in Hc1.
  set (s1 := Eff.state_of (Script.toggleBook index s)) in *.
  destruct (toggleBook_cart index s1) as [_ Hc2]. rewrite Hb1 in Hc2.
  fold bk in Hc2. rewrite Hc2, Hc1.
  destruct (Script.in_cart (Script.cart s) bk) eqn:E.
  - assert (Hout : Script.in_cart
                     (filter (fun c => Script.book c ≠ bk) (Script.cart s)) bk
                   = false).
    { apply in_cart_false. intros x Hx. now apply list_elem_of_filter in Hx. }
    now rewrite Hout.
  - assert (Hin : Script.in_cart (Script.cart s ++ [Script.mkItem bk 1]) bk = true).
    { apply in_cart_true. exists (Script.mkItem bk 1). split; [|reflexivity].
      apply elem_of_app. right. apply list_elem_of_here. }
    rewrite Hin, filter_app.
    rewrite filter_all by (apply Forall_forall, in_cart_false, E).
    rewrite filter_cons_False by (simpl; tauto). apply app_nil_r.
Qed.

(** The amounts of the rows drawn for a cart are the amounts of its lines. *)
Lemma rows_amounts (bs : list Script.Book) (items : list Script.CartItem)
    (rows : list Script.OrderRow) :
  Forall2 (fun item r =>
             exists b, Script.deref bs (Script.book item) = Some b
                       /\ Script.row_qty r = Script.quantity item
                       /\ Script.row_price r
                          = Script.unit_price b * Script.quantity item)
          items rows ->
  Script.row_price <$> rows = ScriptPage.amount bs <$> items.
Proof.
  induction 1 as [|item r items rows (b & Hb & _ & Hp) _ IH]; [reflexivity|].
  rewrite !fmap_cons, IH. f_equal. unfold ScriptPage.amount. now rewrite Hb.
Qed.

(** What [renderOrder] draws for a cart that is not empty and whose lines
    all hold catalog books: one row per line, showing the amount of the
    line, and under them the sum of the amounts shown, added from 0 in the
    order of the rows. *)
Lemma renderOrder_table (s : Script.State) :
  Script.cart s ≠ [] ->
  Forall (fun c => is_Some (Script.deref (Script.books s) (Script.book c)))
         (Script.cart s) ->
  exists rows t,
    Script.orderSummary (Eff.state_of (Script.renderOrder s))
    = Script.OrderTable rows t
    /\ Script.row_price <$> rows
       = ScriptPage.amount (Script.books s) <$> Script.cart s
    /\ t = Script.shown_sum rows.
Proof.
  intros Hne Hv. destruct (order_total_valid _ _ 0 Hv) as [t0 Ht0].
  pose proof (order_rows_total (Script.books s) (Script.cart s) 0 0 []) as Hrows.
  unfold Script.renderOrder. eff_unfold. cbv beta zeta iota.
  rewrite decide_False by (destruct (Script.cart s); [congruence|discriminate]).
  destruct (Script.order_rows _ _ _ _ _) as [[rows t]|e].
  - destruct Hrows as (_ & new & Hnew & Hsum & Hall). simpl in Hnew. subst new.
    exists rows, t. simpl. split; [reflexivity|].
    split; [now apply rows_amounts|exact Hsum].
  - rewrite Ht0 in Hrows. discriminate.
Qed.

(** A page in step with a cart whose lines all hold catalog books shows the
    table of that cart. *)
Lemma in_sync_table (s : Script.State) (rows : list Script.OrderRow) (t : Q) :
  Script.in_sync s ->
  Forall (fun c => is_Some (Script.deref (Script.books s) (Script.book c)))
         (Script.cart s) ->
  Script.orderSummary s = Script.OrderTable rows t ->
  Script.cart s ≠ []
  /\ Script.order_total (Script.books s) (Script.cart s) 0 = Eff.Ok t
  /\ Forall2 (fun item r =>
                exists b,
                  Script.deref (Script.books s) (Script.book item) = Some b
                  /\ Script.row_qty r = Script.quantity item
                  /\ Script.row_price r
                     = Script.unit_price b * Script.quantity item)
             (Script.cart s) rows.
Proof.
  intros Hsync Hv Hsum. unfold Script.in_sync in Hsync.
  destruct (order_total_valid _ _ 0 Hv) as [t0 Ht0].
  pose proof (order_rows_total (Script.books s) (Script.cart s) 0 0 []) as Hrows.
  destruct (Script.order_rows _ _ _ _ _) as [[rows0 t1]|e];
    [|rewrite Ht0 in Hrows; discriminate].
  destruct Hrows as (Ht1 & new & Hnew & _ & Hall). simpl in Hnew. subst new.
  rewrite Hsum in Hsync. case_decide; [discriminate|].
  injection Hsync as -> ->. split; [|split; [exact Ht1|exact Hall]].
  intros Hc. now rewrite Hc in *.
Qed.

(** X2: removing a line.  On a page that shows the table of its cart,
    clicking the cross of a row removes that line of the cart and no other;
    the page then shows the placeholder if the cart is empty, and otherwise
    a table with one row less: the rows that stay show the amounts they
    showed, in their order, and the total is the sum of these amounts,
    added from 0 in the order of the rows. *)
Theorem X2_remove_line (index : nat) (s : Script.State)
    (rows : list Script.OrderRow) (t : Q) (r : Script.OrderRow) :
  Script.in_sync s ->
  Forall (fun c => is_Some (Script.deref (Script.books s) (Script.book c)))
         (Script.cart s) ->
  Script.orderSummary s = Script.OrderTable rows t ->
  rows !! index = Some r ->
  let s' := Eff.state_of (Script.removeItem index s) in
  Script.cart s' = delete index (Script.cart s)
  /\ (length (Script.cart s') + 1 = length (Script.cart s))%nat
  /\ match Script.cart s' with
     | [] => Script.orderSummary s' = Script.NoBooksYet
     | _ :: _ =>
         exists rows' t',
           Script.orderSummary s' = Script.OrderTable rows' t'
           /\ Script.row_price <$> rows' = delete index (Script.row_price <$> rows)
           /\ t' = Script.shown_sum rows'
           /\ (length rows' + 1 = length rows)%nat
     end.
Proof.
  intros Hsync Hv Hsum Hr s'.
  destruct (in_sync_table s rows t Hsync Hv Hsum) as (Hne & Ht & Hall).
  destruct (Forall2_lookup_r _ _ _ _ _ Hall Hr) as (it & Hit & _).
  destruct (removeItem_cart index s) as [Hbooks Hcart]. fold s' in Hbooks, Hcart.
  assert (Hlen : (length (Script.cart s') + 1 = length (Script.cart s))%nat).
  { rewrite Hcart, length_delete by eauto.
    apply lookup_lt_Some in Hit. lia. }
  split; [exact Hcart|]. split; [exact Hlen|].
  rewrite Hcart in Hlen |- *. clear Hcart Hbooks. subst s'.
  rewrite removeItem_state.
  remember (delete index (Script.cart s)) as c' eqn:Hdel.
  destruct c' as [|x rest].
  - unfold Script.renderOrder. eff_unfold. reflexivity.
  - destruct (renderOrder_table (Script.set_cart (x :: rest) s))
      as (rows' & t' & Hsum' & Hamt & Htot); [discriminate| |].
    { unfold Script.set_cart. cbn [Script.cart Script.books].
      rewrite Hdel. now apply Forall_delete. }
    exists rows', t'. split; [exact Hsum'|].
    assert (Hrows' : Script.row_price <$> rows'
                     = delete index (Script.row_price <$> rows)).
    { rewrite Hamt. unfold Script.set_cart. cbn [Script.cart Script.books].
      rewrite Hdel, list_fmap_delete.
      now rewrite (rows_amounts _ _ _ Hall). }
    split; [exact Hrows'|]. split; [exact Htot|].
    apply (f_equal length) in Hrows'. rewrite !length_fmap in Hrows'.
    rewrite Hrows', length_delete.
    + apply lookup_lt_Some in Hr. rewrite length_fmap. lia.
    + rewrite list_lookup_fmap, Hr. eauto.
Qed.

Lemma X2_remove_line_witness :
  let b1 := Script.mkBook "1" "A" "B" "G" 100 (Some 80) in
  let b2 := Script.mkBook "2" "C" "D" "G" 50 None in
  let f := Script.mkForm "" "" "" "" "" "" in
  let s0 := Script.mkState [b1; b2] [] [] Script.NoBooksYet "none" "none" f f in
  let s := Script.run [Script.Toggle 0; Script.Toggle 1] s0 in
  Script.cart (Eff.state_of (Script.removeItem 0 s))
  = [Script.mkItem (Some 1%nat) 1].
Proof.
  intros b1 b2 f s0 s.
  assert (Hv : Forall (fun c => is_Some (Script.deref (Script.books s) (Script.book c)))
                      (Script.cart s)).
  { repeat constructor; simpl; eauto. }
  destruct (X2_remove_line 0 s
              [Script.mkOrderRow 1 "A" "B" 1 80; Script.mkOrderRow 2 "C" "D" 1 50]
              130 (Script.mkOrderRow 1 "A" "B" 1 80))
    as (H & _); [reflexivity | exact Hv | reflexivity | reflexivity |].
  exact H.
Defined.

(** X3: setting the quantity of a line.  For a row that does not exist the
    handler throws before it touches anything.  For a row of a page that
    shows the table of its cart, the line keeps its book and takes the
    quantity read, whatever it is, and the other lines are as before; in
    the table drawn, the row of the line shows the unit price of its book
    times the quantity read, the other rows show the amounts they showed,
    and the total is the sum of the amounts shown, added from 0 in the order
    of the rows. *)
Theorem X3_update_quantity (index : nat) (qty : Q) (s : Script.State)
    (rows : list Script.OrderRow) (t : Q) :
  Script.in_sync s ->
  Forall (fun c => is_Some (Script.deref (Script.books s) (Script.book c)))
         (Script.cart s) ->
  Script.orderSummary s = Script.OrderTable rows t ->
  match Script.cart s !! index with
  | None =>
      Script.updateQuantity index qty s
      = (Eff.Thrown (Eff.TypeError "Cannot set properties of undefined"), s, [])
  | Some it =>
      let s' := Eff.state_of (Script.updateQuantity index qty s) in
      Script.cart s' = <[index := Script.mkItem (Script.book it) qty]> (Script.cart s)
      /\ (forall j, j ≠ index -> Script.cart s' !! j = Script.cart s !! j)
      /\ exists b rows' t',
           Script.deref (Script.books s) (Script.book it) = Some b
           /\ Script.orderSummary s' = Script.OrderTable rows' t'
           /\ Script.row_price <$> rows'
              = <[index := Script.unit_price b * qty]> (Script.row_price <$> rows)
           /\ t' = Script.shown_sum rows'
  end.
Proof.
  intros Hsync Hv Hsum.
  destruct (in_sync_table s rows t Hsync Hv Hsum) as (Hne & Ht & Hall).
  destruct (Script.cart s !! index) as [it|] eqn:Hit.
  - intros s'.
    destruct (updateQuantity_cart index qty s) as [_ Hcart].
    fold s' in Hcart. rewrite Hit in Hcart.
    split; [exact Hcart|]. split.
    { intros j Hj. rewrite Hcart. now apply list_lookup_insert_ne. }
    destruct (proj1 (Forall_lookup _ _) Hv _ _ Hit) as [b Hb].
    subst s'. rewrite updateQuantity_state, Hit.
    destruct (renderOrder_table
                (Script.set_cart
                   (<[index := Script.mkItem (Script.book it) qty]> (Script.cart s)) s))
      as (rows' & t' & Hsum' & Hamt & Htot).
    + simpl. intros Hnil. apply (f_equal length) in Hnil.
      rewrite length_insert in Hnil. destruct (Script.cart s); [congruence|discriminate].
    + simpl. apply Forall_insert; [exact Hv|]. simpl. eauto.
    + exists b, rows', t'. split; [exact Hb|]. split; [exact Hsum'|].
      split; [|exact Htot].
      rewrite Hamt. simpl. rewrite list_fmap_insert.
      rewrite (rows_amounts _ _ _ Hall). f_equal.
      unfold ScriptPage.amount. simpl. now rewrite Hb.
  - unfold Script.updateQuantity. eff_unfold. cbv beta zeta iota.
    now rewrite Hit.
Qed.

Lemma X3_update_quantity_witness :
  let b1 := Script.mkBook "1" "A" "B" "G" 100 (Some 80) in
  let f := Script.mkForm "" "" "" "" "" "" in
  let s0 := Script.mkState [b1] [] [] Script.NoBooksYet "none" "none" f f in
  let s := Script.run [Script.Toggle 0] s0 in
  Script.cart (Eff.state_of (Script.updateQuantity 0 3 s))
  = [Script.mkItem (Some 0%nat) 3]
  /\ Eff.result_of (Script.updateQuantity 1 3 s)
     = Eff.Thrown (Eff.TypeError "Cannot set properties of undefined").
Proof.
  intros b1 f s0 s.
  assert (Hv : Forall (fun c => is_Some (Script.deref (Script.books s) (Script.book c)))
                      (Script.cart s)).
  { repeat constructor; simpl; eauto. }
  pose proof (X3_update_quantity 0 3 s [Script.mkOrderRow 1 "A" "B" 1 80] 80
                eq_refl Hv eq_refl) as H0.
  pose proof (X3_update_quantity 1 3 s [Script.mkOrderRow 1 "A" "B" 1 80] 80
                eq_refl Hv eq_refl) as H1.
  simpl in H0, H1. destruct H0 as [H0 _]. split; [exact H0|]. now rewrite H1.
Defined.

(** The rows of the order table are numbered from 1, one per cart line. *)
Lemma order_rows_numbers (bs : list Script.Book) (items : list Script.CartItem)
    (idx : nat) (total : Q) (html rows : list Script.OrderRow) (t : Q) :
  Script.order_rows bs items idx total html = Eff.Ok (rows, t) ->
  exists new,
    rows = html ++ new /\ length new = length items
    /\ forall k r, new !! k = Some r -> Script.row_no r = (idx + k + 1)%nat.
Proof.
  revert idx total html. induction items as [|item rest IH];
    intros idx total html; simpl.
  - intros [= <- <-]. exists []. rewrite app_nil_r. repeat split.
    intros k r Hk. discriminate.
  - destruct (Script.deref bs (Script.book item)) as [b|]; [|discriminate].
    intros H. destruct (IH _ _ _ H) as (new & -> & Hlen & Hno).
    eexists (_ :: new). rewrite <- app_assoc. split; [reflexivity|].
    split; [simpl; now rewrite Hlen|].
    intros [|k] r Hk; simpl in Hk.
    + injection Hk as <-. simpl. lia.
    + rewrite (Hno k r Hk). lia.
Qed.

(** What [renderOrder] leaves on the page when it runs to its end. *)
Lemma renderOrder_page (s1 : Script.State) :
  ScriptPage.completes (Script.renderOrder s1) ->
  let s' := Eff.state_of (Script.renderOrder s1) in
  Script.cart s' = Script.cart s1 /\
  match Script.cart s1 with
  | [] =>
      Script.orderSummary s' = Script.NoBooksYet
      /\ Script.checkoutBtn s' = "none" /\ Script.customerForm s' = "none"
  | _ :: _ =>
      Script.checkoutBtn s' = "block"
      /\ Script.customerForm s' = Script.customerForm s1
      /\ exists rows t,
           Script.orderSummary s' = Script.OrderTable rows t
           /\ length rows = length (Script.cart s1)
           /\ forall k r, rows !! k = Some r -> Script.row_no r = (k + 1)%nat
  end.
Proof.
  unfold ScriptPage.completes, Script.renderOrder. eff_unfold.
  cbv beta zeta iota. destruct (Script.cart s1) as [|x rest] eqn:Hc.
  - simpl. rewrite Hc. tauto.
  - rewrite decide_False by discriminate.
    destruct (Script.order_rows _ _ _ _ _) as [[rows t]|e] eqn:E;
      simpl; [|discriminate].
    intros _. rewrite Hc. split; [reflexivity|].
    split; [reflexivity|]. split; [reflexivity|].
    destruct (order_rows_numbers _ _ _ _ _ _ _ E) as (new & Hnew & Hlen & Hno).
    simpl in Hnew. subst new. exists rows, t. split; [reflexivity|].
    split; [exact Hlen|]. intros k r Hk. now rewrite (Hno k r Hk).
Qed.

(** A cart action that runs to its end has replaced the cart and redrawn
    the order. *)
Lemma handler_renderOrder (op : Script.Op) (s : Script.State) :
  ScriptPage.completes (Script.handler op s) ->
  exists c,
    Eff.state_of (Script.handler op s)
    = Eff.state_of (Script.renderOrder (Script.set_cart c s))
    /\ ScriptPage.completes (Script.renderOrder (Script.set_cart c s)).
Proof.
  intros Hdone. destruct op as [i|i n|i]; simpl in *.
  - rewrite toggleBook_state. eexists. split; [reflexivity|].
    revert Hdone. unfold Script.toggleBook, ScriptPage.completes.
    eff_unfold. cbv beta zeta iota.
    destruct (Script.in_cart _ _);
      destruct (Script.renderOrder _) as [[r s2] t2]; simpl; tauto.
  - rewrite updateQuantity_state.
    destruct (Script.cart s !! i) as [it|] eqn:Hit.
    + eexists. split; [reflexivity|].
      revert Hdone. unfold Script.updateQuantity, ScriptPage.completes.
      eff_unfold. cbv beta zeta iota. rewrite Hit.
      destruct (Script.renderOrder _) as [[r s2] t2]; simpl; tauto.
    + exfalso. revert Hdone. unfold Script.updateQuantity, ScriptPage.completes.
      eff_unfold. cbv beta zeta iota. rewrite Hit. simpl. discriminate.
  - rewrite removeItem_state. eexists. split; [reflexivity|].
    revert Hdone. unfold Script.removeItem, ScriptPage.completes.
    eff_unfold. cbv beta zeta iota.
    destruct (Script.renderOrder _) as [[r s2] t2]; simpl; tauto.
Qed.

(** X4: what the page shows after a cart action that ran to its end.  With
    an empty cart: the placeholder, and both the checkout button and the
    customer form hidden.  Otherwise: a table with one row per cart line,
    numbered from 1, the checkout button shown, and the customer form as it
    was. *)
Theorem X4_page_after_action (op : Script.Op) (s : Script.State) :
  ScriptPage.completes (Script.handler op s) ->
  let s' := Eff.state_of (Script.handler op s) in
  match Script.cart s' with
  | [] =>
      Script.orderSummary s' = Script.NoBooksYet
      /\ Script.checkoutBtn s' = "none" /\ Script.customerForm s' = "none"
  | _ :: _ =>
      Script.checkoutBtn s' = "block"
      /\ Script.customerForm s' = Script.customerForm s
      /\ exists rows t,
           Script.orderSummary s' = Script.OrderTable rows t
           /\ length rows = length (Script.cart s')
           /\ forall k r, rows !! k = Some r -> Script.row_no r = (k + 1)%nat
  end.
Proof.
  intros Hdone s'. subst s'.
  destruct (handler_renderOrder op s Hdone) as (c & -> & Hd1).
  destruct (renderOrder_page _ Hd1) as [Hc H]. rewrite Hc. exact H.
Qed.
Lemma X4_page_after_action_witness :
  let b1 := Script.mkBook "1" "A" "B" "G" 100 (Some 80) in
  let f := Script.mkForm "" "" "" "" "" "" in
  let s0 := Script.mkState [b1] [] [] Script.NoBooksYet "none" "block" f f in
  Script.checkoutBtn (Eff.state_of (Script.handler (Script.Toggle 0) s0)) = "block"
  /\ Script.customerForm (Eff.state_of (Script.handler (Script.Toggle 0) s0)) = "block".
Proof.
  intros b1 f s0.
  pose proof (X4_page_after_action (Script.Toggle 0) s0 eq_refl) as H.
  simpl in H. destruct H as (H1 & H2 & _). split; [exact H1|exact H2].
Defined.

(** ** The page script: the book list and the filter controls *)

Lemma book_rows_elem (filter filterValue : string) (c : list Script.CartItem)
    (n : nat) (bs : list Script.Book) (r : Script.BookRow) :
  r ∈ Script.book_rows filter filterValue c n bs
  <-> exists i b, bs !! i = Some b
                  /\ Script.skipped filter filterValue b = false
                  /\ r = ScriptPage.row_of filter c (n + i) b.
Proof.
  revert n. induction bs as [|b rest IH]; intros n; simpl.
  - split; [intros H; now apply elem_of_nil in H|].
    intros (i & b & Hi & _). discriminate.
  - destruct (Script.skipped filter filterValue b) eqn:E.
    + rewrite IH. split.
      * intros (i & b' & Hi & Hs & ->). exists (S i), b'.
        repeat split; [exact Hi|exact Hs|]. f_equal. lia.
      * intros ([|i] & b' & Hi & Hs & ->); simpl in Hi.
        { injection Hi as <-. congruence. }
        exists i, b'. repeat split; [exact Hi|exact Hs|]. f_equal. lia.
    + rewrite elem_of_cons, IH. split.
      * intros [-> | (i & b' & Hi & Hs & ->)].
        { exists 0%nat, b. repeat split; [exact E|].
          unfold ScriptPage.row_of. now rewrite Nat.add_0_r. }
        exists (S i), b'. repeat split; [exact Hi|exact Hs|]. f_equal. lia.
      * intros ([|i] & b' & Hi & Hs & ->); simpl in Hi.
        { injection Hi as <-. left. unfold ScriptPage.row_of.
          now rewrite Nat.add_0_r. }
        right. exists i, b'. repeat split; [exact Hi|exact Hs|]. f_equal. lia.
Qed.

Lemma book_rows_all (filter : string) (c : list Script.CartItem) (n : nat)
    (bs : list Script.Book) :
  Script.book_rows filter "" c n bs
  = imap (fun i b => ScriptPage.row_of filter c (n + i) b) bs.
Proof.
  revert n. induction bs as [|b rest IH]; intros n; [reflexivity|].
  simpl. rewrite IH. unfold ScriptPage.row_of at 1. rewrite Nat.add_0_r.
  f_equal. apply imap_ext. intros i x _. simpl.
  now rewrite Nat.add_succ_r.
Qed.

(** X5: the book list and its checkboxes.  [renderBooks] draws one row for
    each book that passes the filter, carrying the book's index in the
    catalog, its label and a tick exactly when the book is in the cart;
    without a filter value it draws every book, in catalog order.  Ticking
    a row that is not ticked puts the book of that row in the cart with
    quantity 1, and unticking a ticked row leaves no line for that book. *)
Theorem X5_book_list_rows (filter filterValue : string) (s : Script.State) :
  let s' := Eff.state_of (Script.renderBooks filter filterValue s) in
  (forall r,
      r ∈ Script.bookList s'
      <-> exists i b, Script.books s !! i = Some b
                      /\ Script.skipped filter filterValue b = false
                      /\ r = ScriptPage.row_of filter (Script.cart s) i b)
  /\ (filterValue = "" ->
      Script.bookList s'
      = imap (ScriptPage.row_of filter (Script.cart s)) (Script.books s))
  /\ (forall r,
         r ∈ Script.bookList s' ->
         let i := Script.row_index r in
         let after := Script.cart (Eff.state_of (Script.toggleBook i s')) in
         (Script.row_checked r = true
          <-> exists x, x ∈ Script.cart s /\ Script.book x = Some i)
         /\ if Script.row_checked r
            then forall x, x ∈ after -> Script.book x ≠ Some i
            else after = Script.cart s ++ [Script.mkItem (Some i) 1]).
Proof.
  intros s'.
  assert (Hs' : s' = Script.set_bookList
                       (Script.book_rows filter filterValue (Script.cart s) 0
                          (Script.books s)) s) by reflexivity.
  rewrite Hs'. simpl. split; [|split].
  - intros r. now rewrite book_rows_elem.
  - intros ->. apply book_rows_all.
  - intros r Hr. apply book_rows_elem in Hr as (i & b & Hi & Hskip & ->).
    simpl. split; [apply in_cart_true|].
    set (s1 := Script.set_bookList _ s).
    destruct (toggleBook_cart i s1) as [_ Hc]. subst s1. simpl in Hc.
    assert (Hat : Script.books_at (Script.books s) i = Some i).
    { unfold Script.books_at. rewrite decide_True; [reflexivity|].
      now apply lookup_lt_Some in Hi. }
    rewrite Hat in Hc. rewrite Hc.
    destruct (Script.in_cart (Script.cart s) (Some i)); [|reflexivity].
    intros x Hx. now apply list_elem_of_filter in Hx.
Qed.

(** [book[key]] is a string exactly where [Script.prop] finds one. *)
Lemma field_prop (b : Script.Book) (key v : string) :
  ScriptPage.field b key = ScriptPage.VString v <-> Script.prop b key = Some v.
Proof.
  unfold ScriptPage.field, Script.prop.
  repeat case_decide; try (split; congruence).
  destruct (Script.discounted b); split; congruence.
Qed.

Lemma same_value_refl (x : ScriptPage.Value) : ScriptPage.same_value x x = true.
Proof.
  destruct x as [s|n|]; simpl; [now apply bool_decide_eq_true| |reflexivity].
  now apply Qeq_bool_iff.
Qed.

Lemma same_value_sym (x y : ScriptPage.Value) :
  ScriptPage.same_value x y = ScriptPage.same_value y x.
Proof.
  destruct x as [s|n|], y as [s'|n'|]; simpl; try reflexivity.
  - apply bool_decide_ext. split; congruence.
  - destruct (Qeq_bool n n') eqn:E, (Qeq_bool n' n) eqn:E'; try reflexivity.
    + apply Qeq_bool_iff in E. symmetry in E. apply Qeq_bool_iff in E. congruence.
    + apply Qeq_bool_iff in E'. symmetry in E'. apply Qeq_bool_iff in E'. congruence.
Qed.

Lemma Set_values_fold (xs seen : list ScriptPage.Value) :
  ScriptPage.distinct_values seen ->
  let res := fold_left (fun seen x =>
                          if existsb (ScriptPage.same_value x) seen then seen
                          else seen ++ [x]) xs seen in
  ScriptPage.distinct_values res
  /\ (forall y, y ∈ res -> y ∈ seen \/ y ∈ xs)
  /\ (forall x, x ∈ seen \/ x ∈ xs ->
                exists y, y ∈ res /\ ScriptPage.same_value x y = true).
Proof.
  revert seen. induction xs as [|x xs IH]; intros seen Hd; simpl.
  - split; [exact Hd|]. split; [tauto|].
    intros y [Hy|Hy]; [|now apply elem_of_nil in Hy].
    exists y. split; [exact Hy|apply same_value_refl].
  - destruct (existsb (ScriptPage.same_value x) seen) eqn:E.
    + destruct (IH seen Hd) as (H1 & H2 & H3). split; [exact H1|]. split.
      * intros y Hy. destruct (H2 y Hy) as [?|?]; [now left|].
        right. now apply list_elem_of_further.
      * intros z [Hz|Hz]; [apply H3; now left|].
        apply elem_of_cons in Hz as [->|Hz]; [|apply H3; now right].
        apply existsb_exists in E as (y & Hy & Hxy).
        apply list_elem_of_In in Hy.
        destruct (H3 y (or_introl Hy)) as (y' & Hy' & Hyy').
        (* the option standing for [y] is [y] itself *)
        clear Hy' Hyy' y'.
        assert (Hkeep : forall l s0, y ∈ s0 ->
                  y ∈ fold_left (fun seen x =>
                                   if existsb (ScriptPage.same_value x) seen
                                   then seen else seen ++ [x]) l s0).
        { induction l as [|a l IHl]; intros s0 Hs0; [exact Hs0|]. simpl.
          apply IHl. destruct (existsb _ s0); [exact Hs0|].
          apply elem_of_app. now left. }
        exists y. split; [now apply Hkeep|exact Hxy].
    + assert (Hd' : ScriptPage.distinct_values (seen ++ [x])).
      { intros i j a b Ha Hb Hab.
        assert (Hno : forall y, y ∈ seen -> ScriptPage.same_value x y = false).
        { intros y Hy. destruct (ScriptPage.same_value x y) eqn:Exy; [|reflexivity].
          assert (existsb (ScriptPage.same_value x) seen = true).
          { apply existsb_exists. exists y. split; [now apply list_elem_of_In|exact Exy]. }
          congruence. }
        apply lookup_app_Some in Ha as [Ha|[Hi Ha]];
          apply lookup_app_Some in Hb as [Hb|[Hj Hb]].
        - exact (Hd i j a b Ha Hb Hab).
        - apply list_lookup_singleton_Some in Hb as [_ <-].
          apply list_elem_of_lookup_2 in Ha. rewrite same_value_sym in Hab.
          rewrite (Hno a Ha) in Hab. discriminate.
        - apply list_lookup_singleton_Some in Ha as [_ <-].
          apply list_elem_of_lookup_2 in Hb.
          rewrite (Hno b Hb) in Hab. discriminate.
        - apply list_lookup_singleton_Some in Ha as [Ha _].
          apply list_lookup_singleton_Some in Hb as [Hb _]. lia. }
      destruct (IH _ Hd') as (H1 & H2 & H3). split; [exact H1|]. split.
      * intros y Hy. destruct (H2 y Hy) as [Hy'|Hy'].
        -- apply elem_of_app in Hy' as [?|Hy']; [now left|].
           apply list_elem_of_singleton in Hy'. subst. right. apply list_elem_of_here.
        -- right. now apply list_elem_of_further.
      * intros z [Hz|Hz].
        -- apply H3. left. apply elem_of_app. now left.
        -- apply elem_of_cons in Hz as [->|Hz].
           ++ apply H3. left. apply elem_of_app. right. apply list_elem_of_here.
           ++ apply H3. now right.
Qed.

Lemma Set_values_spec (xs : list ScriptPage.Value) :
  ScriptPage.distinct_values (ScriptPage.Set_values xs)
  /\ (forall y, y ∈ ScriptPage.Set_values xs -> y ∈ xs)
  /\ (forall x, x ∈ xs ->
                exists y, y ∈ ScriptPage.Set_values xs
                          /\ ScriptPage.same_value x y = true).
Proof.
  destruct (Set_values_fold xs []) as (H1 & H2 & H3).
  { intros i j a b Ha. discriminate. }
  split; [exact H1|]. split.
  - intros y Hy. destruct (H2 y Hy) as [H|H]; [now apply elem_of_nil in H|exact H].
  - intros x Hx. apply H3. now right.
Qed.
Ltac page_unfold :=
  unfold ScriptPage.radioChange, ScriptPage.dropdownChange, ScriptPage.load,
    ScriptPage.populateDropdown, ScriptPage.getSelectedFilter,
    ScriptPage.renderBooks, ScriptPage.checkoutClick, ScriptPage.on_st,
    ScriptPage.on_page,
    ScriptPage.completes, Script.renderBooks in *;
  eff_unfold; cbv beta zeta iota.

(** X6: choosing a filter.  With no radio button checked the handler throws
    and the page is as before.  Choosing [title] disables the dropdown and
    lists every book.  Choosing another key enables the dropdown, selects
    its placeholder and fills it with the values of that key over the
    catalog: every book's value is offered, every option is the value of
    some book, and no value is offered twice; the book list is not redrawn. *)
Theorem X6_radio_change (p : ScriptPage.Page) :
  match ScriptPage.checked (ScriptPage.controls p) with
  | None =>
      ScriptPage.radioChange p
      = (Eff.Thrown (Eff.TypeError "Cannot read properties of null"), p, [])
  | Some filter =>
      let s := ScriptPage.st p in
      let p' := Eff.state_of (ScriptPage.radioChange p) in
      let c' := ScriptPage.controls p' in
      ScriptPage.completes (ScriptPage.radioChange p)
      /\ Script.cart (ScriptPage.st p') = Script.cart s
      /\ Script.books (ScriptPage.st p') = Script.books s
      /\ if decide (filter = "title") then
           ScriptPage.disabled c' = true
           /\ ScriptPage.options c' = ScriptPage.options (ScriptPage.controls p)
           /\ Script.bookList (ScriptPage.st p')
              = imap (ScriptPage.row_of "title" (Script.cart s)) (Script.books s)
         else
           ScriptPage.disabled c' = false
           /\ ScriptPage.value c' = ""
           /\ Script.bookList (ScriptPage.st p') = Script.bookList s
           /\ ScriptPage.distinct_values (ScriptPage.options c')
           /\ (forall b, b ∈ Script.books s ->
                 exists y, y ∈ ScriptPage.options c'
                           /\ ScriptPage.same_value (ScriptPage.field b filter) y
                              = true)
           /\ (forall y, y ∈ ScriptPage.options c' ->
                 exists b, b ∈ Script.books s /\ ScriptPage.field b filter = y)
  end.
Proof.
  destruct p as [s c]. simpl.
  destruct (ScriptPage.checked c) as [filter|] eqn:Hc.
  - page_unfold. simpl. rewrite Hc. simpl.
    case_decide as Ht; simpl.
    + subst filter. repeat split. apply book_rows_all.
    + destruct (Set_values_spec ((fun b => ScriptPage.field b filter)
                                   <$> Script.books s)) as (H1 & H2 & H3).
      repeat split; [exact H1| |].
      * intros b Hb. apply H3. apply list_elem_of_fmap. now exists b.
      * intros y Hy. apply H2 in Hy. apply list_elem_of_fmap in Hy as (b & -> & Hb).
        now exists b.
  - page_unfold. simpl. now rewrite Hc.
Qed.

Lemma radioChange_other (p : ScriptPage.Page) (filter : string) :
  ScriptPage.checked (ScriptPage.controls p) = Some filter ->
  filter ≠ "title" ->
  ScriptPage.radioChange p
  = (Eff.Ok tt,
     ScriptPage.mkPage (ScriptPage.st p)
       (ScriptPage.mkControls (Some filter) false
          (ScriptPage.Set_values
             ((fun b => ScriptPage.field b filter) <$> Script.books (ScriptPage.st p)))
          "" (ScriptPage.load_failed (ScriptPage.controls p))),
     []).
Proof.
  intros Hc Hnt. destruct p as [s c]. simpl in *. page_unfold. simpl.
  rewrite Hc. simpl. rewrite decide_False by exact Hnt.
  unfold ScriptPage.set_controls, ScriptPage.set_options, ScriptPage.set_value,
    ScriptPage.set_disabled. simpl. now rewrite Hc.
Qed.

(** X7: picking an option.  After a key other than [title] has been chosen,
    picking any offered string that is not empty lists at least one book,
    and every book listed has that string as its value for the key. *)
Theorem X7_option_lists_books (p : ScriptPage.Page) (filter v : string) :
  ScriptPage.checked (ScriptPage.controls p) = Some filter ->
  filter ≠ "title" ->
  let p1 := Eff.state_of (ScriptPage.radioChange p) in
  ScriptPage.VString v ∈ ScriptPage.options (ScriptPage.controls p1) ->
  v ≠ "" ->
  let p2 := Eff.state_of (ScriptPage.dropdownChange v p1) in
  ScriptPage.completes (ScriptPage.dropdownChange v p1)
  /\ ScriptPage.value (ScriptPage.controls p2) = v
  /\ Script.bookList (ScriptPage.st p2) ≠ []
  /\ forall r, r ∈ Script.bookList (ScriptPage.st p2) ->
       exists b, Script.books (ScriptPage.st p) !! Script.row_index r = Some b
                 /\ Script.prop b filter = Some v.
Proof.
  intros Hc Hnt p1 Hv Hne p2. subst p2 p1.
  rewrite (radioChange_other p filter Hc Hnt) in *.
  change (Eff.state_of (?a, ?b, ?c)) with b in *. simpl in Hv.
  set (p1 := ScriptPage.mkPage _ _).
  destruct (Set_values_spec ((fun b => ScriptPage.field b filter)
                               <$> Script.books (ScriptPage.st p))) as (_ & H2 & _).
  apply H2 in Hv. apply list_elem_of_fmap in Hv as (b0 & Hf0 & Hb0).
  symmetry in Hf0. apply field_prop in Hf0.
  assert (Hp2 : ScriptPage.completes (ScriptPage.dropdownChange v p1)
                /\ ScriptPage.value (ScriptPage.controls
                     (Eff.state_of (ScriptPage.dropdownChange v p1))) = v
                /\ Script.bookList (ScriptPage.st (Eff.state_of (ScriptPage.dropdownChange v p1)))
                   = Script.book_rows filter v (Script.cart (ScriptPage.st p)) 0
                       (Script.books (ScriptPage.st p))).
  { subst p1. destruct p as [s c]. simpl in *. page_unfold. simpl.
    rewrite decide_True by exact Hne. simpl. tauto. }
  destruct Hp2 as (Hdone & Hval & Hrows). split; [exact Hdone|].
  split; [exact Hval|]. rewrite Hrows. split.
  - apply list_elem_of_lookup in Hb0 as [i Hi].
    intros Hnil.
    assert (Hin : ScriptPage.row_of filter (Script.cart (ScriptPage.st p)) (0 + i) b0
                  ∈ Script.book_rows filter v (Script.cart (ScriptPage.st p)) 0
                      (Script.books (ScriptPage.st p))).
    { apply book_rows_elem. exists i, b0. split; [exact Hi|]. split; [|reflexivity].
      unfold Script.skipped. rewrite Hf0.
      rewrite (bool_decide_eq_false_2 (Some v ≠ Some v)) by tauto.
      apply andb_false_r. }
    rewrite Hnil in Hin. now apply elem_of_nil in Hin.
  - intros r Hr. apply book_rows_elem in Hr as (i & b & Hi & Hskip & ->).
    exists b. split; [exact Hi|].
    unfold Script.skipped in Hskip.
    rewrite (bool_decide_eq_true_2 (v ≠ "")) in Hskip by exact Hne.
    simpl in Hskip. apply bool_decide_eq_false in Hskip.
    destruct (decide (Script.prop b filter = Some v)); [assumption|contradiction].
Qed.

Lemma X7_option_lists_books_witness :
  let b1 := Script.mkBook "1" "A" "Ann" "Faith" 100 None in
  let b2 := Script.mkBook "2" "B" "Bo" "Finance" 50 None in
  let f := Script.mkForm "" "" "" "" "" "" in
  let s := Script.mkState [b1; b2] [] [] Script.NoBooksYet "none" "none" f f in
  let p := ScriptPage.mkPage s (ScriptPage.mkControls (Some "genre") true [] "" false) in
  let p1 := Eff.state_of (ScriptPage.radioChange p) in
  Script.bookList (ScriptPage.st (Eff.state_of (ScriptPage.dropdownChange "Finance" p1)))
  ≠ [].
Proof.
  intros b1 b2 f s p p1.
  destruct (X7_option_lists_books p "genre" "Finance") as (_ & _ & H & _);
    [reflexivity | discriminate
    | vm_compute; apply list_elem_of_further, list_elem_of_here
    | discriminate |].
  exact H.
Defined.

(** X8: loading the catalog.  The promise chain never rejects, the cart
    and the order summary are untouched, and the user is not alerted.  When
    the response body parses to an array of books, whatever the status, the
    catalog is replaced and every book is listed by title.  When the request
    fails or the body does not parse, the catalog is as before, the list
    shows the failure notice and the error is logged.  When the body parses
    to something that is not an array, [books] no longer holds a list, the
    list shows the failure notice and the error thrown by [renderBooks] is
    logged. *)
Theorem X8_load_catalog (o : Eff.Outcome ScriptPage.Parsed) (b : ScriptPage.Boot) :
  let r := ScriptPage.load o b in
  let b' := Eff.state_of r in
  let p' := ScriptPage.page b' in
  let s := ScriptPage.st (ScriptPage.page b) in
  ScriptPage.completes r
  /\ Script.cart (ScriptPage.st p') = Script.cart s
  /\ Script.orderSummary (ScriptPage.st p') = Script.orderSummary s
  /\ match o with
     | Eff.HttpReply _ (inr (ScriptPage.Array data)) =>
         ScriptPage.books_is_array b' = true
         /\ Script.books (ScriptPage.st p') = data
         /\ Script.bookList (ScriptPage.st p')
            = imap (ScriptPage.row_of "title" (Script.cart s)) data
         /\ ScriptPage.load_failed (ScriptPage.controls p') = false
         /\ Eff.trace_of r = [Eff.Fetch Script.API_URL None]
     | Eff.HttpReply _ (inr ScriptPage.NotArray) =>
         ScriptPage.books_is_array b' = false
         /\ Script.bookList (ScriptPage.st p') = []
         /\ ScriptPage.load_failed (ScriptPage.controls p') = true
         /\ exists err,
              Eff.trace_of r
              = [Eff.Fetch Script.API_URL None; Eff.ConsoleError err]
     | Eff.NetworkFailure e | Eff.HttpReply _ (inl e) =>
         ScriptPage.books_is_array b' = ScriptPage.books_is_array b
         /\ Script.books (ScriptPage.st p') = Script.books s
         /\ Script.bookList (ScriptPage.st p') = []
         /\ ScriptPage.load_failed (ScriptPage.controls p') = true
         /\ Eff.trace_of r = [Eff.Fetch Script.API_URL None; Eff.ConsoleError e]
     end.
Proof.
  destruct b as [[s c] a]. destruct o as [e|ok [e|[|data]]]; page_unfold; simpl;
    repeat split; try (eexists; reflexivity). apply book_rows_all.
Qed.

(** X9: what the page script does with a response whose body parses.  The
    cart is not empty and its lines hold catalog books; the status of the
    response plays no part.  The order posted carries the form fields, every
    cart line with its book and quantity, and the total of the cart.  When
    the body is anything but [null], the user is told that the order is
    confirmed, with the order id (or [undefined] when the body has none);
    the cart is emptied, the form is reset, the summary shows the
    placeholder and the checkout button and the customer form are hidden;
    the book list is not redrawn.  When the body is [null], reading the
    order id throws: the user is told that the order failed, the error is
    logged and the page is as before. *)
Theorem X9_order_confirmed (ok : bool) (r : Script.Reply) (s : Script.State) :
  Script.cart s ≠ [] ->
  Forall (fun c => is_Some (Script.deref (Script.books s) (Script.book c)))
         (Script.cart s) ->
  exists t,
    Script.order_total (Script.books s) (Script.cart s) 0 = Eff.Ok t
    /\ let order :=
         Script.mkOrder (Script.fullname (Script.form s))
           (Script.email (Script.form s)) (Script.contact (Script.form s))
           (Script.fb (Script.form s)) (Script.pickup (Script.form s))
           (Script.pickupdate (Script.form s))
           ((fun i => (Script.deref (Script.books s) (Script.book i),
                       Script.quantity i)) <$> Script.cart s)
           t in
       match r with
       | Script.mkReply oid =>
           Script.submit (Eff.HttpReply ok (inr r)) s
           = (Eff.Ok tt,
              Script.mkState (Script.books s) [] (Script.bookList s)
                Script.NoBooksYet "none" "none" (Script.form_defaults s)
                (Script.form_defaults s),
              [Eff.PreventDefault; Eff.Fetch Script.API_URL order;
               Eff.Alert ("Order confirmed! Your Order ID: "
                          +:+ default "undefined" oid)])
       | Script.JsonNull =>
           exists err,
             Script.submit (Eff.HttpReply ok (inr r)) s
             = (Eff.Ok tt, s,
                [Eff.PreventDefault; Eff.Fetch Script.API_URL order;
                 Eff.Alert "Failed to submit order. Please try again.";
                 Eff.ConsoleError err])
       end.
Proof.
  intros Hne Hv. destruct (order_total_valid _ _ 0 Hv) as [t Ht].
  exists t. split; [exact Ht|].
  unfold Script.submit. eff_unfold. cbv beta zeta iota.
  rewrite decide_False by (destruct (Script.cart s); [congruence|discriminate]).
  rewrite Ht. destruct r as [|oid]; simpl; [eexists|]; reflexivity.
Qed.

Lemma X9_order_confirmed_witness :
  let b1 := Script.mkBook "1" "A" "B" "G" 100 (Some 80) in
  let f := Script.mkForm "Ana" "ana@example.org" "0917" "" "Ayala" "Sunday" in
  let d := Script.mkForm "" "" "" "" "" "" in
  let s := Script.mkState [b1] [Script.mkItem (Some 0%nat) 2] [] Script.NoBooksYet
             "none" "block" f d in
  Script.cart (Eff.state_of (Script.submit (Eff.HttpReply true
                                              (inr (Script.mkReply (Some "42")))) s))
  = []
  /\ Script.cart (Eff.state_of (Script.submit (Eff.HttpReply true
                                                 (inr Script.JsonNull)) s))
     = Script.cart s.
Proof.
  intros b1 f d s.
  assert (Hv : Forall (fun c => is_Some (Script.deref (Script.books s) (Script.book c)))
                      (Script.cart s)).
  { repeat constructor; simpl; eauto. }
  destruct (X9_order_confirmed true (Script.mkReply (Some "42")) s)
    as (t & _ & H); [discriminate|exact Hv|].
  destruct (X9_order_confirmed true Script.JsonNull s)
    as (t' & _ & err & H'); [discriminate|exact Hv|].
  split; [now rewrite H|now rewrite H'].
Defined.

(** X10: the checkout button and the customer form.  A click on the
    checkout button shows the form and hides the button, and touches
    nothing else.  After a further cart action that runs to its end, the
    form and the button are both shown if the cart holds a line, and both
    hidden if it holds none. *)
Theorem X10_checkout_then_action (op : Script.Op) (p : ScriptPage.Page) :
  let p1 := Eff.state_of (ScriptPage.checkoutClick p) in
  ScriptPage.completes (Script.handler op (ScriptPage.st p1)) ->
  let s2 := Eff.state_of (Script.handler op (ScriptPage.st p1)) in
  (ScriptPage.checkoutClick p
   = (Eff.Ok tt,
      ScriptPage.set_st
        (Script.set_checkoutBtn "none"
           (Script.set_customerForm "block" (ScriptPage.st p))) p, [])
   /\ Script.cart (ScriptPage.st p1) = Script.cart (ScriptPage.st p)
   /\ Script.orderSummary (ScriptPage.st p1) = Script.orderSummary (ScriptPage.st p)
   /\ Script.customerForm (ScriptPage.st p1) = "block"
   /\ Script.checkoutBtn (ScriptPage.st p1) = "none")
  /\ match Script.cart s2 with
     | [] => Script.checkoutBtn s2 = "none" /\ Script.customerForm s2 = "none"
     | _ :: _ => Script.checkoutBtn s2 = "block" /\ Script.customerForm s2 = "block"
     end.
Proof.
  intros p1 Hdone s2.
  assert (E : ScriptPage.checkoutClick p
              = (Eff.Ok tt,
                 ScriptPage.set_st
                   (Script.set_checkoutBtn "none"
                      (Script.set_customerForm "block" (ScriptPage.st p))) p, [])).
  { destruct p as [s c]. reflexivity. }
  split.
  - split; [exact E|]. subst p1. rewrite E. repeat split.
  - subst s2. destruct (handler_renderOrder op _ Hdone) as (c & -> & Hd1).
    destruct (renderOrder_page _ Hd1) as [Hc H]. rewrite Hc.
    cbn [Script.cart Script.set_cart] in H |- *.
    destruct c as [|x rest]; [tauto|]. destruct H as (Hb & Hf & _).
    split; [exact Hb|]. rewrite Hf. subst p1. rewrite E. reflexivity.
Qed.

Lemma X10_checkout_then_action_witness :
  let b1 := Script.mkBook "1" "A" "Ann" "Faith" 100 None in
  let b2 := Script.mkBook "2" "B" "Bo" "Finance" 50 None in
  let f := Script.mkForm "" "" "" "" "" "" in
  let s := Script.mkState [b1; b2] [Script.mkItem (Some 0%nat) 1] []
             (Script.OrderTable [Script.mkOrderRow 1 "A" "Ann" 1 100] 100)
             "block" "none" f f in
  let p := ScriptPage.mkPage s (ScriptPage.mkControls (Some "title") true [] "" false) in
  let s2 := Eff.state_of
              (Script.handler (Script.Toggle 1)
                 (ScriptPage.st (Eff.state_of (ScriptPage.checkoutClick p)))) in
  Script.checkoutBtn s2 = "block" /\ Script.customerForm s2 = "block".
Proof.
  intros b1 b2 f s p s2.
  pose proof (X10_checkout_then_action (Script.Toggle 1) p eq_refl) as [_ H].
  exact H.
Defined.
(** ** The search of the React form *)

Lemma lt_price (p m : Q) : JS.lt (JS.or_default (Some p) 0) m = false <-> m <= p.
Proof.
  unfold JS.lt. rewrite bool_decide_eq_false.
  pose proof (or_default_eq p 0 (Qeq_refl 0)) as H. split; intros; lra.
Qed.

Lemma gt_price (p m : Q) : JS.gt (JS.or_default (Some p) 0) m = false <-> p <= m.
Proof.
  unfold JS.gt. rewrite bool_decide_eq_false.
  pose proof (or_default_eq p 0 (Qeq_refl 0)) as H. split; intros; lra.
Qed.

(** X11: which books the search keeps.  A book is kept exactly when the
    trimmed, lower-cased query is empty or occurs in the lower-cased title,
    author and genre joined by spaces; the chosen genre, if any, is the
    book's; the chosen location, if any, is the book's; and the price lies
    within the bounds entered, both bounds included. *)
Theorem X11_search_keeps (f : Form.Search) (b : Form.Book) :
  Form.keeps f b = true <->
    (JS.toLowerCase (JS.trim (Form.q f)) = ""
     \/ JS.includes
          (JS.toLowerCase (Form.title b +:+ " " +:+ Form.author b +:+ " "
                           +:+ Form.genre b))
          (JS.toLowerCase (JS.trim (Form.q f))) = true)
    /\ (Form.genre_sel f = "" \/ Form.genre b = Form.genre_sel f)
    /\ (Form.location_sel f = "" \/ Form.location b = Form.location_sel f)
    /\ (forall m, Form.minPrice f = Some m -> m <= Form.price b)
    /\ (forall m, Form.maxPrice f = Some m -> Form.price b <= m).
Proof.
  unfold Form.keeps. cbv zeta.
  destruct (decide (JS.toLowerCase (JS.trim (Form.q f)) = "")) as [Hq|Hq].
  2: destruct (JS.includes _ (JS.toLowerCase (JS.trim (Form.q f)))) eqn:Hinc.
  all: rewrite ?(bool_decide_eq_true_2 _ Hq), ?(bool_decide_eq_false_2 _ (fun H => H Hq));
    cbn [andb negb].
  3: { split; [discriminate|]. intros [[?|?] _]; congruence. }
  all: destruct (decide (Form.genre_sel f = "")) as [Hg|Hg];
    [rewrite (bool_decide_eq_false_2 _ (fun H => H Hg))
    |rewrite (bool_decide_eq_true_2 _ Hg)]; cbn [andb negb].
  all: try (destruct (decide (Form.genre b = Form.genre_sel f)) as [Hg'|Hg'];
            [rewrite (bool_decide_eq_false_2 _ (fun H => H Hg'))
            |rewrite (bool_decide_eq_true_2 _ Hg');
             split; [discriminate|intros (_ & [?|?] & _); congruence]]; cbn [andb negb]).
  all: destruct (decide (Form.location_sel f = "")) as [Hl|Hl];
    [rewrite (bool_decide_eq_false_2 _ (fun H => H Hl))
    |rewrite (bool_decide_eq_true_2 _ Hl)]; cbn [andb negb].
  all: try (destruct (decide (Form.location b = Form.location_sel f)) as [Hl'|Hl'];
            [rewrite (bool_decide_eq_false_2 _ (fun H => H Hl'))
            |rewrite (bool_decide_eq_true_2 _ Hl');
             split; [discriminate|intros (_ & _ & [?|?] & _); congruence]]; cbn [andb negb]).
  all: destruct (Form.minPrice f) as [lo|];
    [destruct (JS.lt _ lo) eqn:Hlo;
     [split; [discriminate|];
      intros (_ & _ & _ & Hmin & _); specialize (Hmin lo eq_refl);
      apply lt_price in Hmin; congruence
     |apply lt_price in Hlo]|].
  all: destruct (Form.maxPrice f) as [hi|];
    [destruct (JS.gt _ hi) eqn:Hhi;
     [split; [discriminate|];
      intros (_ & _ & _ & _ & Hmax); specialize (Hmax hi eq_refl);
      apply gt_price in Hmax; congruence
     |apply gt_price in Hhi]|].
  all: split; [intros _|reflexivity];
    repeat split; try (now left); try (now right);
    intros m' Hm'; try discriminate; now injection Hm' as <-.
Qed.

Lemma trimStart_blank (s : string) :
  FormPage.all_chars Ascii.is_space s = true -> JS.trimStart s = "".
Proof.
  induction s as [|c r IH]; [reflexivity|]. simpl FormPage.all_chars.
  intros [Hc Hr]%andb_true_iff. cbn [JS.trimStart]. rewrite Hc. now apply IH.
Qed.

(** X12: a query of blanks only, with no genre, location or price bound
    chosen, keeps the whole catalog. *)
Theorem X12_blank_search_keeps_all (bs : list Form.Book) (f : Form.Search) :
  FormPage.all_chars Ascii.is_space (Form.q f) = true ->
  Form.genre_sel f = "" ->
  Form.location_sel f = "" ->
  Form.minPrice f = None ->
  Form.maxPrice f = None ->
  Form.applyFilter bs f = bs.
Proof.
  intros Hq Hg Hl Hlo Hhi. unfold Form.applyFilter.
  apply filter_all, Forall_forall. intros b _. apply Is_true_true.
  unfold Form.keeps, JS.trim. rewrite (trimStart_blank _ Hq), Hg, Hl, Hlo, Hhi.
  reflexivity.
Qed.

Lemma X12_blank_search_keeps_all_witness :
  let b := Form.mkBook "1" "A" "B" "" "G" 100 "" "" in
  Form.applyFilter [b] (Form.mkSearch "  " "" "" None None) = [b].
Proof.
  intros b. now apply X12_blank_search_keeps_all.
Defined.


Lemma is_space_lower (c : ascii) :
  Ascii.is_space (JS.lower_ascii c) = Ascii.is_space c.
Proof. destruct c as [[] [] [] [] [] [] [] []]; reflexivity. Qed.

Lemma lower_ascii_idemp (c : ascii) :
  JS.lower_ascii (JS.lower_ascii c) = JS.lower_ascii c.
Proof. destruct c as [[] [] [] [] [] [] [] []]; reflexivity. Qed.

Lemma toLowerCase_idemp (s : string) :
  JS.toLowerCase (JS.toLowerCase s) = JS.toLowerCase s.
Proof.
  induction s as [|c r IH]; [reflexivity|]. simpl.
  now rewrite lower_ascii_idemp, IH.
Qed.

Lemma toLowerCase_app (s t : string) :
  JS.toLowerCase (s +:+ t) = JS.toLowerCase s +:+ JS.toLowerCase t.
Proof. induction s as [|c r IH]; [reflexivity|]. simpl. now rewrite IH. Qed.

Lemma toLowerCase_rev_app (s t : string) :
  JS.toLowerCase (String.rev_app s t)
  = String.rev_app (JS.toLowerCase s) (JS.toLowerCase t).
Proof.
  revert t. induction s as [|c r IH]; intros t; [reflexivity|]. simpl.
  now rewrite IH.
Qed.

Lemma toLowerCase_rev (s : string) :
  JS.toLowerCase (String.rev s) = String.rev (JS.toLowerCase s).
Proof. apply toLowerCase_rev_app. Qed.

Lemma toLowerCase_trimStart (s : string) :
  JS.toLowerCase (JS.trimStart s) = JS.trimStart (JS.toLowerCase s).
Proof.
  induction s as [|c r IH]; [reflexivity|]. cbn [JS.trimStart JS.toLowerCase].
  rewrite is_space_lower. destruct (Ascii.is_space c); [exact IH|reflexivity].
Qed.

Lemma toLowerCase_trim (s : string) :
  JS.toLowerCase (JS.trim s) = JS.trim (JS.toLowerCase s).
Proof.
  unfold JS.trim.
  now rewrite toLowerCase_rev, toLowerCase_trimStart, toLowerCase_rev,
    toLowerCase_trimStart.
Qed.

(** X13: the text query is matched without regard to case: two searches
    whose queries differ only in the case of their letters, and which agree
    on everything else, keep the same books. *)
Theorem X13_search_ignores_case (f f' : Form.Search) (bs : list Form.Book) :
  JS.toLowerCase (Form.q f) = JS.toLowerCase (Form.q f') ->
  Form.genre_sel f = Form.genre_sel f' ->
  Form.location_sel f = Form.location_sel f' ->
  Form.minPrice f = Form.minPrice f' ->
  Form.maxPrice f = Form.maxPrice f' ->
  Form.applyFilter bs f = Form.applyFilter bs f'.
Proof.
  intros Hq Hg Hl Hlo Hhi. unfold Form.applyFilter.
  apply list_filter_iff. intros b.
  assert (H : Form.keeps f b = Form.keeps f' b); [|now rewrite H].
  unfold Form.keeps. now rewrite !toLowerCase_trim, Hq, Hg, Hl, Hlo, Hhi.
Qed.

Lemma X13_search_ignores_case_witness :
  let b1 := Form.mkBook "1" "How to Be Rich" "Bo" "" "Finance" 100 "" "" in
  let b2 := Form.mkBook "2" "Prayer" "Ann" "" "Faith" 50 "" "" in
  Form.applyFilter [b1; b2] (Form.mkSearch "RICH" "" "" None None)
  = Form.applyFilter [b1; b2] (Form.mkSearch "rich" "" "" None None).
Proof.
  intros b1 b2. now apply X13_search_ignores_case.
Defined.

(** ** The cart of the React form *)

Lemma Math_max_one (n : Q) : 1 <= JS.Math_max 1 n.
Proof. apply Q.le_max_l. Qed.


Lemma Forall_filter_keep {A} (P R : A -> Prop) `{!forall x, Decision (R x)}
    (l : list A) :
  Forall P l -> Forall P (filter R l).
Proof.
  rewrite !Forall_forall. intros Hl x Hx. apply list_elem_of_filter in Hx.
  apply Hl, Hx.
Qed.

Lemma Form_step_quantities (op : Form.Op) (c : list Form.CartItem) :
  Forall (fun it => 1 <= Form.qty it) c ->
  Forall (fun it => 1 <= Form.qty it) (Form.step op c).
Proof.
  intros H. destruct op as [b|i n|i]; simpl.
  - unfold Form.addToCart.
    destruct (list_find _ c) as [[i x]|] eqn:E.
    + apply list_find_Some in E as (Hi & _ & _).
      apply Forall_insert; [exact H|]. simpl.
      rewrite Forall_forall in H. specialize (H x (list_elem_of_lookup_2 _ _ _ Hi)).
      simpl in H. lra.
    + apply Forall_app. split; [exact H|]. repeat constructor. simpl. lra.
  - unfold Form.updateQty. apply Forall_fmap. eapply Forall_impl; [exact H|].
    intros x Hx. simpl. case_decide; [apply Math_max_one|exact Hx].
  - unfold Form.removeFromCart. now apply Forall_filter_keep.
Qed.

(** X14: quantities in the cart of the React form.  Whatever the user does
    with the add, plus, minus and remove controls, and whatever number the
    quantity box passes, a cart whose quantities are at least 1 keeps
    quantities of at least 1; so does the cart when a submission returns.
    A text in the quantity box that does not read as a number is not among
    these actions: it passes NaN, which [updateQty] stores. *)
Theorem X14_form_quantities (ops : list Form.Op) (o : Eff.Outcome Form.Reply)
    (s : Form.State) :
  Forall (fun it => 1 <= Form.qty it) (Form.cart s) ->
  Forall (fun it => 1 <= Form.qty it) (Form.run ops (Form.cart s))
  /\ Forall (fun it => 1 <= Form.qty it)
            (Form.cart (Eff.state_of
                          (Form.submitOrder o
                             (Form.set_cart (Form.run ops (Form.cart s)) s)))).
Proof.
  intros H.
  assert (Hrun : Forall (fun it => 1 <= Form.qty it) (Form.run ops (Form.cart s))).
  { generalize dependent (Form.cart s). induction ops as [|op ops IH]; intros c Hc;
      [exact Hc|]. apply IH. now apply Form_step_quantities. }
  split; [exact Hrun|].
  destruct (Form_submit_cart o (Form.set_cart (Form.run ops (Form.cart s)) s))
    as [E|E]; rewrite E; [exact Hrun|constructor].
Qed.

Lemma X14_form_quantities_witness :
  let b := Form.mkBook "1" "A" "B" "" "G" 100 "" "" in
  let k := Form.mkCheckout "" "" "" "" "" None "" in
  let s := Form.mkState "sheet" [b] FormPage.no_search [Form.mkItem b 2]
             false None k false "" in
  Forall (fun it => 1 <= Form.qty it)
         (Form.run [Form.SetQty "1" (-3); Form.Add b] (Form.cart s)).
Proof.
  intros b k s.
  refine (proj1 (X14_form_quantities [Form.SetQty "1" (-3); Form.Add b]
                   (Eff.NetworkFailure (Eff.TypeError "Failed to fetch")) s _)).
  repeat constructor. simpl. lra.
Defined.

(** X16: removing a book from the cart of the React form.  No line of that
    id is left, the other lines stay, in their order; removing an id that is
    not in the cart changes nothing; and a book added after its removal is
    the last line, with quantity 1. *)
Theorem X16_form_remove (b : Form.Book) (c : list Form.CartItem) :
  let c' := Form.removeFromCart (Form.id b) c in
  (forall x, x ∈ c' <-> x ∈ c /\ Form.id (Form.item x) ≠ Form.id b)
  /\ c' `sublist_of` c
  /\ ((forall x, x ∈ c -> Form.id (Form.item x) ≠ Form.id b) -> c' = c)
  /\ Form.removeFromCart (Form.id b) c' = c'
  /\ Form.addToCart b c' = c' ++ [Form.mkItem b 1].
Proof.
  intros c'. subst c'. unfold Form.removeFromCart.
  split; [|split; [|split; [|split]]].
  - intros x. rewrite list_elem_of_filter. tauto.
  - apply sublist_filter.
  - intros H. apply filter_all, Forall_forall. exact H.
  - apply filter_idemp.
  - apply Form_addToCart_absent. intros x Hx.
    apply list_elem_of_filter in Hx. tauto.
Qed.
(** ** Submitting and loading in the React form *)

(** X17: what the React form does with a response that is [ok] and whose
    body parses, the cart not being empty.  One request is made, to
    [/reserve], carrying the sheet id, the checkout fields and one line per
    cart item with its id, title, author, quantity and price.  When the
    body is anything but [null], the cart is emptied; the name, email,
    phone, Facebook name, notes and payment file are cleared while the
    pickup choice stays; the message shown is the reply's, or the stock
    sentence when the reply has none or an empty one, so it is never empty;
    the user is not alerted.  When the body is [null], reading the message
    throws: the user is alerted, the cart and the fields are as before and
    no message is shown.  In both cases the catalog is untouched and the
    form is no longer submitting. *)
Theorem X17_form_order_accepted (r : Form.Reply) (s : Form.State) :
  Form.cart s ≠ [] ->
  let k := Form.checkout s in
  let res := Form.submitOrder (Eff.HttpReply true (inr r)) s in
  let s' := Eff.state_of res in
  let request :=
    Eff.Fetch (Form.API_BASE +:+ "/reserve")
      (Form.mkFormData (Form.sheetId s) (Form.fullName k) (Form.email k)
         (Form.phone k) (Form.fbName k) (Form.pickup k) (Form.notes k)
         ((fun it => Form.mkLine (Form.id (Form.item it))
                       (Form.title (Form.item it)) (Form.author (Form.item it))
                       (Form.qty it) (Form.price (Form.item it)))
            <$> Form.cart s)
         (Form.paymentFile k)) in
  ScriptPage.completes res
  /\ Form.submitting s' = false
  /\ Form.books s' = Form.books s
  /\ match r with
     | Form.mkReply msg =>
         Eff.trace_of res = [Eff.PreventDefault; request]
         /\ Form.cart s' = []
         /\ Form.checkout s' = Form.mkCheckout "" "" "" "" (Form.pickup k) None ""
         /\ Form.successMsg s' ≠ ""
         /\ (forall m, msg = Some m -> m ≠ "" -> Form.successMsg s' = m)
     | Form.JsonNull =>
         (exists m, Eff.trace_of res = [Eff.PreventDefault; request; Eff.Alert m])
         /\ Form.cart s' = Form.cart s
         /\ Form.checkout s' = Form.checkout s
         /\ Form.successMsg s' = ""
     end.
Proof.
  intros Hne k res s' request. subst res s' request k.
  unfold ScriptPage.completes, Form.submitOrder. eff_unfold. cbv beta zeta iota.
  rewrite decide_False by (destruct (Form.cart s); [congruence|discriminate]).
  destruct r as [|msg]; simpl.
  - repeat split. eexists. reflexivity.
  - repeat split.
    + destruct msg as [m|]; [|discriminate].
      case_decide; [discriminate|assumption].
    + intros m -> Hm. now rewrite decide_False.
Qed.

Lemma X17_form_order_accepted_witness :
  let b := Form.mkBook "1" "A" "B" "" "G" 100 "" "" in
  let k := Form.mkCheckout "Ana" "ana@example.org" "0917" "" "Feast ayala - Sunday"
             (Some "proof.png") "call me" in
  let s := Form.mkState "sheet" [b] FormPage.no_search [Form.mkItem b 2]
             false None k false "" in
  Form.checkout (Eff.state_of
                   (Form.submitOrder (Eff.HttpReply true (inr (Form.mkReply None))) s))
  = Form.mkCheckout "" "" "" "" "Feast ayala - Sunday" None ""
  /\ Form.cart (Eff.state_of
                  (Form.submitOrder (Eff.HttpReply true (inr Form.JsonNull)) s))
     = [Form.mkItem b 2].
Proof.
  intros b k s.
  destruct (X17_form_order_accepted (Form.mkReply None) s)
    as (_ & _ & _ & _ & _ & H & _); [discriminate|].
  destruct (X17_form_order_accepted Form.JsonNull s)
    as (_ & _ & _ & _ & H' & _); [discriminate|].
  split; [exact H|exact H'].
Defined.

(** X18: loading the catalog of the React form.  With no sheet id nothing
    happens.  Otherwise one request is made, to the address of the sheet;
    when it is [ok] and its body parses the catalog becomes the array
    received, or the empty catalog for [null], and no error is shown; when
    it fails, is not [ok] or does not parse, the catalog is as before and
    the error shown is the failure's message.  In every case the handler
    runs to its end, the loading flag is down and the cart is untouched. *)
Theorem X18_form_load_books (o : Eff.Outcome (option (list Form.Book)))
    (s : Form.State) :
  let res := FormPage.loadBooks o s in
  let s' := Eff.state_of res in
  ScriptPage.completes res
  /\ Form.cart s' = Form.cart s
  /\ if decide (Form.sheetId s = "") then res = (Eff.Ok tt, s, [])
     else
       Form.loading s' = false
       /\ Eff.trace_of res = [Eff.Fetch (FormPage.books_url (Form.sheetId s)) tt]
       /\ match o with
          | Eff.HttpReply true (inr data) =>
              Form.books s' = default [] data /\ Form.error s' = None
          | Eff.HttpReply false _ =>
              Form.books s' = Form.books s
              /\ Form.error s' = Some "Failed to fetch books"
          | Eff.NetworkFailure e | Eff.HttpReply true (inl e) =>
              Form.books s' = Form.books s
              /\ Form.error s' = Some (Form.notice e)
          end.
Proof.
  intros res s'. subst res s'.
  unfold ScriptPage.completes, FormPage.loadBooks, FormPage.fetchBooks.
  eff_unfold. cbv beta zeta iota.
  case_decide as Hid; [now repeat split|].
  destruct o as [e|[|] [e|data]]; simpl; repeat split.
Qed.

(** ** The address of the catalog request *)

Lemma hex_digit_unreserved (n : nat) :
  (n < 16)%nat -> FormPage.unreserved (FormPage.hex_digit n) = true.
Proof.
  intros H. do 16 (destruct n as [|n]; [reflexivity|]). lia.
Qed.

Lemma hex_digit_inj (a b : nat) :
  (a < 16)%nat -> (b < 16)%nat -> FormPage.hex_digit a = FormPage.hex_digit b -> a = b.
Proof.
  intros Ha Hb H.
  assert (Hn : forall n, (n < 16)%nat ->
                 (nat_of_ascii (FormPage.hex_digit n)
                  = if (n <? 10)%nat then 48 + n else 55 + n)%nat).
  { intros n Hn. do 16 (destruct n as [|n]; [reflexivity|]). lia. }
  apply (f_equal nat_of_ascii) in H. rewrite !Hn in H by assumption.
  destruct (a <? 10)%nat eqn:Ea, (b <? 10)%nat eqn:Eb;
    rewrite ?Nat.ltb_lt, ?Nat.ltb_ge in *; lia.
Qed.

Lemma nat_of_ascii_bound (c : ascii) : (nat_of_ascii c < 256)%nat.
Proof. destruct c as [[] [] [] [] [] [] [] []]; vm_compute; lia. Qed.

Lemma nat_of_ascii_inj (c d : ascii) : nat_of_ascii c = nat_of_ascii d -> c = d.
Proof.
  intros H. rewrite <- (ascii_nat_embedding c), <- (ascii_nat_embedding d).
  now rewrite H.
Qed.

Lemma encodeURIComponent_chars (s : string) :
  FormPage.all_chars FormPage.component_char (FormPage.encodeURIComponent s) = true.
Proof.
  induction s as [|c r IH]; [reflexivity|].
  cbn [FormPage.encodeURIComponent].
  destruct (FormPage.unreserved c) eqn:E; cbn [FormPage.all_chars].
  - unfold FormPage.component_char at 1. now rewrite E.
  - pose proof (nat_of_ascii_bound c) as Hc. rewrite IH.
    unfold FormPage.component_char.
    rewrite !hex_digit_unreserved; [reflexivity| |].
    + apply Nat.mod_upper_bound. lia.
    + apply Nat.Div0.div_lt_upper_bound. lia.
Qed.

Lemma encodeURIComponent_plain (s : string) :
  FormPage.all_chars FormPage.unreserved s = true ->
  FormPage.encodeURIComponent s = s.
Proof.
  induction s as [|c r IH]; [reflexivity|]. simpl.
  intros [Hc Hr]%andb_true_iff. rewrite Hc. now rewrite IH.
Qed.

Lemma encodeURIComponent_inj (s t : string) :
  FormPage.encodeURIComponent s = FormPage.encodeURIComponent t -> s = t.
Proof.
  revert t.
  induction s as [|c r IH]; intros [|d u]; cbn [FormPage.encodeURIComponent].
  - reflexivity.
  - destruct (FormPage.unreserved d); discriminate.
  - destruct (FormPage.unreserved c); discriminate.
  - pose proof (nat_of_ascii_bound c) as Hc.
    pose proof (nat_of_ascii_bound d) as Hd.
    destruct (FormPage.unreserved c) eqn:Ec, (FormPage.unreserved d) eqn:Ed;
      intros H.
    + injection H as H1 H2. subst d. f_equal. now apply IH.
    + injection H as H1 H2. subst c. discriminate Ec.
    + injection H as H1 H2. subst d. discriminate Ed.
    + injection H as H2 H3 H4.
      change (FormPage.hex_digit (nat_of_ascii c / 16)
              = FormPage.hex_digit (nat_of_ascii d / 16))%nat in H2.
      change (FormPage.hex_digit (nat_of_ascii c mod 16)
              = FormPage.hex_digit (nat_of_ascii d mod 16))%nat in H3.
      apply hex_digit_inj in H2;
        [|apply Nat.Div0.div_lt_upper_bound; lia..].
      apply hex_digit_inj in H3; [|apply Nat.mod_upper_bound; lia..].
      assert (Hn : nat_of_ascii c = nat_of_ascii d).
      { rewrite (Nat.div_mod_eq (nat_of_ascii c) 16),
          (Nat.div_mod_eq (nat_of_ascii d) 16). now rewrite H2, H3. }
      apply nat_of_ascii_inj in Hn. subst d. f_equal. now apply IH.
Qed.

Lemma string_app_inv_head (p x y : string) : p +:+ x = p +:+ y -> x = y.
Proof.
  induction p as [|c p IH]; simpl; [tauto|]. intros H. injection H as H.
  now apply IH.
Qed.

(** X19: the address requested for a sheet.  The encoded sheet id is made
    of letters, digits, the marks [-_.!~*'()] and percent signs only; a
    sheet id made of letters, digits and those marks is sent as it is; and
    two different sheet ids are never requested at the same address. *)
Theorem X19_books_url (s t : string) :
  FormPage.all_chars FormPage.component_char (FormPage.encodeURIComponent s) = true
  /\ (FormPage.all_chars FormPage.unreserved s = true ->
      FormPage.books_url s = Form.API_BASE +:+ "/books?sheetId=" +:+ s)
  /\ (FormPage.books_url s = FormPage.books_url t -> s = t).
Proof.
  split; [apply encodeURIComponent_chars|]. unfold FormPage.books_url. split.
  - intros H. now rewrite encodeURIComponent_plain.
  - intros H. repeat apply string_app_inv_head in H.
    now apply encodeURIComponent_inj.
Qed.
(** ** The cart of the local component *)

Section Sums.
Context {A : Type} (f : A -> Q).

Lemma fold_sum_acc (l : list A) (a : Q) :
  fold_left (fun s x => s + f x) l a == a + fold_left (fun s x => s + f x) l 0.
Proof.
  revert a. induction l as [|x l IH]; intros a; simpl; [lra|].
  rewrite (IH (a + f x)), (IH (0 + f x)). lra.
Qed.

Lemma fold_sum_cons (x : A) (l : list A) :
  fold_left (fun s x => s + f x) (x :: l) 0
  == f x + fold_left (fun s x => s + f x) l 0.
Proof. simpl. rewrite fold_sum_acc. lra. Qed.




Lemma fold_sum_lower (l : list A) (m : Q) :
  Forall (fun x => m <= f x) l ->
  inject_Z (Z.of_nat (length l)) * m <= fold_left (fun s x => s + f x) l 0.
Proof.
  induction 1 as [|x l Hx Hl IH].
  - cbn [length fold_left]. change (inject_Z (Z.of_nat 0)) with 0.
    rewrite Qmult_0_l. apply Qle_refl.
  - rewrite fold_sum_cons. cbn [length]. rewrite Nat2Z.inj_succ.
    unfold Z.succ. rewrite inject_Z_plus. change (inject_Z 1) with 1.
    rewrite Qmult_plus_distr_l, Qmult_1_l. lra.
Qed.

End Sums.

Section Keyed.
Context {A K : Type} (key : A -> K) `{!EqDecision K}.



End Keyed.

Lemma Local_step_quantities (op : Local.Op) (c : list Local.CartItem) :
  LocalPage.quantities_ok c -> LocalPage.quantities_ok (Local.step op c).
Proof.
  unfold LocalPage.quantities_ok. intros H. destruct op as [b|i n|i|]; simpl.
  - unfold Local.addToCart.
    destruct (list_find _ c) as [[i x]|] eqn:E.
    + apply list_find_Some in E as (Hi & _ & _).
      apply Forall_insert; [exact H|]. simpl.
      rewrite Forall_forall in H. specialize (H x (list_elem_of_lookup_2 _ _ _ Hi)).
      simpl in H. lra.
    + apply Forall_app. split; [exact H|]. repeat constructor. simpl. lra.
  - unfold Local.setQty. apply Forall_filter_keep, Forall_fmap.
    eapply Forall_impl; [exact H|].
    intros x Hx. simpl. case_decide; [apply Math_max_one|exact Hx].
  - unfold Local.removeItem. now apply Forall_filter_keep.
  - constructor.
Qed.

Lemma Local_run_quantities (ops : list Local.Op) (c : list Local.CartItem) :
  LocalPage.quantities_ok c -> LocalPage.quantities_ok (Local.run ops c).
Proof.
  revert c. induction ops as [|op ops IH]; intros c Hc; [exact Hc|].
  apply IH. now apply Local_step_quantities.
Qed.

Lemma Local_setQty_fmap (bookId : string) (n : Q) (c : list Local.CartItem) :
  LocalPage.quantities_ok c ->
  Local.setQty bookId n c
  = (fun x => if decide (Local.id (Local.book x) = bookId)
              then Local.mkItem (Local.book x) (JS.Math_max 1 n) else x) <$> c.
Proof.
  intros H. unfold Local.setQty. apply filter_all, Forall_fmap.
  eapply Forall_impl; [exact H|]. intros x Hx. cbn beta in *.
  pose proof (Math_max_one n). unfold compose.
  case_decide; cbn [Local.qty]; lra.
Qed.

(** X20: quantities in the cart of the local component.  Whatever the user
    does with the add, quantity, remove and clear controls, a cart whose
    quantities are at least 1 keeps quantities of at least 1.  On such a
    cart, setting a quantity never drops a line, and the number on the cart
    button is at least the number of lines. *)
Theorem X20_local_quantities (ops : list Local.Op) (c : list Local.CartItem) :
  LocalPage.quantities_ok c ->
  let c' := Local.run ops c in
  LocalPage.quantities_ok c'
  /\ (forall bookId n, length (Local.setQty bookId n c') = length c')
  /\ inject_Z (Z.of_nat (length c')) <= LocalPage.cartCount c'.
Proof.
  intros H c'. pose proof (Local_run_quantities ops c H) as H'. fold c' in H'.
  split; [exact H'|]. split.
  - intros bookId n. rewrite Local_setQty_fmap by exact H'. apply length_fmap.
  - pose proof (fold_sum_lower Local.qty c' 1 H') as Hs.
    unfold LocalPage.cartCount, JS.reduce. lra.
Qed.

Lemma X20_local_quantities_witness :
  let a := Local.mkBook "1" "A" "" "" "" 100 (Some 20) "" in
  LocalPage.quantities_ok
    (Local.run [Local.Add a; Local.SetQty "1" 0; Local.Add a] [Local.mkItem a 3]).
Proof.
  intros a.
  refine (proj1 (X20_local_quantities
                   [Local.Add a; Local.SetQty "1" 0; Local.Add a]
                   [Local.mkItem a 3] _)).
  repeat constructor. simpl. lra.
Defined.





(** ** The custom book form and the discount *)

(** X24: adding a book of one's own.  The form is accepted exactly when the
    title, the author and the image are filled in and the price is a number
    other than 0.  A form that is not accepted changes nothing.  An accepted
    form puts one book in front of the catalog, under the id drawn, with the
    fields entered, a missing discount counting as 0; the books already in
    the catalog stay; and the form is reset, so that a second click adds
    nothing. *)
Theorem X24_add_custom_book (rnd rnd' : string) (nb : LocalPage.NewBook)
    (catalog : list Local.Book) :
  let '(catalog', nb') := LocalPage.addCustomBook rnd nb catalog in
  (LocalPage.canAdd nb = true
   <-> LocalPage.title nb ≠ "" /\ LocalPage.author nb ≠ ""
       /\ LocalPage.image nb ≠ ""
       /\ exists p, LocalPage.price nb = Some p /\ ~ p == 0)
  /\ (LocalPage.canAdd nb = false -> catalog' = catalog /\ nb' = nb)
  /\ (LocalPage.canAdd nb = true ->
      exists b,
        catalog' = b :: catalog /\ nb' = LocalPage.blank
        /\ Local.id b = rnd /\ Local.title b = LocalPage.title nb
        /\ Local.author b = LocalPage.author nb
        /\ Local.image b = LocalPage.image nb
        /\ LocalPage.price nb = Some (Local.price b)
        /\ Local.discountPct b = Some (JS.or_default (LocalPage.discountPct nb) 0)
        /\ LocalPage.addCustomBook rnd' nb' catalog' = (catalog', nb')).
Proof.
  unfold LocalPage.addCustomBook.
  assert (Hcan : LocalPage.canAdd nb = true
                 <-> LocalPage.title nb ≠ "" /\ LocalPage.author nb ≠ ""
                     /\ LocalPage.image nb ≠ ""
                     /\ exists p, LocalPage.price nb = Some p /\ ~ p == 0).
  { unfold LocalPage.canAdd.
    rewrite !andb_true_iff, !bool_decide_eq_true.
    destruct (LocalPage.price nb) as [p|].
    - rewrite negb_true_iff. split.
      + intros [[[Ht Ha] Hp] Hi]. repeat split; try assumption.
        exists p. split; [reflexivity|]. intros Hz.
        apply Qeq_bool_iff in Hz. congruence.
      + intros (Ht & Ha & Hi & q & Hq & Hz). injection Hq as <-.
        repeat split; try assumption.
        destruct (Qeq_bool p 0) eqn:E; [|reflexivity].
        apply Qeq_bool_iff in E. contradiction.
    - split; [intros [[_ Hp] _]; discriminate|].
      intros (_ & _ & _ & q & Hq & _). discriminate. }
  destruct (LocalPage.canAdd nb) eqn:E; simpl.
  - split; [exact Hcan|]. split; [discriminate|]. intros _.
    eexists. split; [reflexivity|]. split; [reflexivity|].
    destruct (proj1 Hcan eq_refl) as (_ & _ & _ & p & Hp & _).
    rewrite Hp. simpl. repeat split.
  - split; [exact Hcan|]. split; [tauto|discriminate].
Qed.

Lemma Qmult_le_compat_left (a b c : Q) : 0 <= c -> a <= b -> c * a <= c * b.
Proof.
  intros Hc Hab. rewrite (Qmult_comm c a), (Qmult_comm c b).
  now apply Qmult_le_compat_r.
Qed.

(** X25: the discounted price grows with the price and shrinks with the
    discount: of two books, the one that costs no more and whose clamped
    discount is no smaller has the discounted price that is no greater,
    prices being non-negative. *)
Theorem X25_discounted_monotone (b b' : Local.Book) :
  0 <= Local.price b ->
  Local.price b <= Local.price b' ->
  Local.pct_of b' <= Local.pct_of b ->
  Local.discounted b <= Local.discounted b'.
Proof.
  intros H0 Hp Hc. unfold Local.discounted. apply Math_round_mono.
  rewrite !div100. apply Qmult_le_compat_r; [|lra].
  pose proof (pct_of_range b) as Hb. pose proof (pct_of_range b') as Hb'.
  apply Qle_trans with (Local.price b * (100 - Local.pct_of b')).
  - apply Qmult_le_compat_left; lra.
  - apply Qmult_le_compat_r; lra.
Qed.

Lemma X25_discounted_monotone_witness :
  let b := Local.mkBook "1" "A" "" "" "" 100 (Some 20) "" in
  let b' := Local.mkBook "2" "B" "" "" "" 120 (Some 10) "" in
  Local.discounted b <= Local.discounted b'.
Proof.
  intros b b'.
  apply X25_discounted_monotone; vm_compute; discriminate.
Defined.
